(** * EDID block encoder of igt-gpu-tools (lib/igt_edid.c)

    A shallow embedding of the encoder that fills a 128-byte EDID block,
    and the properties of its checksum, standard-timing, descriptor and
    initialisation routines.

    Memory model.  The structs of the encoder are packed, their members
    are single bytes or arrays of bytes, and two of them are unions that
    the encoder fills through either view: a struct is modelled by its
    byte image, a [list Z] whose elements are in [0, 256), a member
    being an offset into it.  A store to a [uint8_t] member converts the
    C value to 8 bits, [u8].  C [int] arithmetic is
    done in [Z] (signed overflow, which C leaves undefined, has no
    model); unsigned 32-bit arithmetic wraps, [u32]. *)

From Stdlib Require Import ZArith Lia List Bool String Ascii QArith.
From stdpp Require Import base numbers list option.

Local Open Scope Z_scope.

(** ** Bytes and byte images *)

(** Conversion of a C integer to [uint8_t]. *)
Definition u8 (x : Z) : Z := x mod 256.

(** Conversion of a C integer to [uint32_t]. *)
Definition u32 (x : Z) : Z := x mod 2 ^ 32.

Definition is_u8 (b : Z) : Prop := 0 <= b < 256.

(** [bytes_wf n buf]: [buf] is the image of an [n]-byte object. *)
Definition bytes_wf (n : nat) (buf : list Z) : Prop :=
  length buf = n /\ Forall is_u8 buf.

(** [buf[off]] read as [uint8_t]; offsets are always inside the object. *)
Definition load (buf : list Z) (off : nat) : Z := nth off buf 0.

(** [buf[off] = v] for a [uint8_t] element. *)
Definition store (buf : list Z) (off : nat) (v : Z) : list Z :=
  <[off := u8 v]> buf.

(** [memcpy (buf + off, src, length src)]. *)
Definition memcpy (buf : list Z) (off : nat) (src : list Z) : list Z :=
  take off buf ++ src ++ drop (off + length src)%nat buf.

(** [memset (buf, c, n)] on an [n]-byte object. *)
Definition memset (c : Z) (n : nat) : list Z := replicate n (u8 c).

(** The sub-object of [len] bytes at [off], as [&buf->member]. *)
Definition sub (buf : list Z) (off len : nat) : list Z :=
  take len (drop off buf).

(** Plain (unbounded) sum of the bytes of an image, to state checksums. *)
Definition byte_sum (buf : list Z) : Z := foldr Z.add 0 buf.

(** ** Assertions

    [assert] aborts the program when its condition is false: a routine
    with assertions returns [None] when one of them fails. *)

Definition assert (b : bool) : option unit := if b then Some tt else None.

(** ** C strings

    A string argument is the list of the bytes found at the pointer; the
    terminating NUL follows the list.  A NUL inside the list ends the
    string earlier, as it does in memory. *)

Fixpoint strlen (str : list Z) : nat :=
  match str with
  | [] => 0
  | c :: str' => if c =? 0 then 0%nat else S (strlen str')
  end.

(** [strncpy (dst, src, n)] as the [n] bytes it leaves in [dst]: the
    characters of [src] up to its NUL, then NUL padding up to [n]. *)
Fixpoint strncpy_bytes (src : list Z) (n : nat) {struct n} : list Z :=
  match n with
  | O => []
  | S n' =>
      match src with
      | [] => replicate n 0
      | c :: src' =>
          if c =? 0 then replicate n 0 else c :: strncpy_bytes src' n'
      end
  end.

Definition strncpy (buf : list Z) (off : nat) (src : list Z) (n : nat)
  : list Z :=
  memcpy buf off (strncpy_bytes src n).

(** The bytes of a string literal. *)
Definition chars (s : string) : list Z :=
  map (fun c => Z.of_N (N_of_ascii c)) (list_ascii_of_string s).

(** ** Layout of [struct edid] *)

(** Modelled from the spec: igt_edid.h, which declares the structs, is
    not part of the sources at hand.  The offsets are those of the binary
    layout of the 128-byte record: bytes 0-7 header, 8-9 manufacturer
    id, 10-11 product code, 12-15 serial, 16 manufacture week, 17
    manufacture year offset, 18 version, 19 revision, 20 input type, 21
    width (cm), 22 height (cm), 23 gamma, 24 features, 25-34
    chromaticity, 35-37 established timings, 38-53 eight 2-byte standard
    timings, 54-125 four 18-byte detailed descriptors, 126 extension
    flag, 127 checksum. *)
Module Edid.
Definition sizeof : nat := 128.
Definition header : nat := 0.
Definition mfg_id : nat := 8.
Definition prod_code : nat := 10.
Definition serial : nat := 12.
Definition mfg_week : nat := 16.
Definition mfg_year : nat := 17.
Definition version : nat := 18.
Definition revision : nat := 19.
Definition input : nat := 20.
Definition width_cm : nat := 21.
Definition height_cm : nat := 22.
Definition gamma : nat := 23.
Definition features : nat := 24.
Definition established_timings : nat := 35.
Definition standard_timings (i : nat) : nat := (38 + 2 * i)%nat.
Definition detailed_timings (i : nat) : nat := (54 + 18 * i)%nat.
Definition extensions : nat := 126.
Definition checksum : nat := 127.
End Edid.

(** Modelled from the spec: the established timings are a 3-byte
    bitmap; [struct est_timings] is declared in igt_edid.h. *)
Module EstTimings.
Definition sizeof : nat := 3.
Definition t1 : nat := 0.
Definition t2 : nat := 1.
Definition mfg_rsvd : nat := 2.
End EstTimings.

(** Modelled from the spec: a standard timing is 2 bytes, the
    horizontal size byte then the byte of aspect and refresh rate;
    [struct std_timing] is declared in igt_edid.h. *)
Module StdTiming.
Definition sizeof : nat := 2.
Definition hsize : nat := 0.
Definition vfreq_aspect : nat := 1.
End StdTiming.

(** Modelled from the spec: the record has 8 standard-timing slots;
    the macro is defined in igt_edid.h. *)
Definition STD_TIMINGS_LEN : nat := 8.

(** ** Layout of the 18-byte detailed descriptor *)

(** Modelled from the spec: the declarations of [struct detailed_timing]
    and of the members of its union are in igt_edid.h, which is not part
    of the sources at hand.  A descriptor is 18 bytes; its first two
    bytes are the pixel clock; the other 16 are shared by a pixel timing
    (16 one-byte members, in the order in which
    [detailed_timing_set_mode] fills them, then the two borders and the
    misc byte) and by a non-pixel record (a pad byte, the type byte, a
    pad byte and a 13-byte payload that is a string or a monitor range:
    six one-byte members and 7 bytes of padding). *)
Module DetailedTiming.
Definition sizeof : nat := 18.
Definition pixel_clock (i : nat) : nat := i.
Definition data : nat := 2.
End DetailedTiming.

Module PixelTiming.
Definition hactive_lo : nat := 0.
Definition hblank_lo : nat := 1.
Definition hactive_hblank_hi : nat := 2.
Definition vactive_lo : nat := 3.
Definition vblank_lo : nat := 4.
Definition vactive_vblank_hi : nat := 5.
Definition hsync_offset_lo : nat := 6.
Definition hsync_pulse_width_lo : nat := 7.
Definition vsync_offset_pulse_width_lo : nat := 8.
Definition hsync_vsync_offset_pulse_width_hi : nat := 9.
Definition width_mm_lo : nat := 10.
Definition height_mm_lo : nat := 11.
Definition width_height_mm_hi : nat := 12.
Definition hborder : nat := 13.
Definition vborder : nat := 14.
Definition misc : nat := 15.
End PixelTiming.

Module NonPixel.
Definition pad1 : nat := 0.
Definition type : nat := 1.
Definition pad2 : nat := 2.
Definition data : nat := 3.
End NonPixel.

Module MonitorRange.
Definition min_vfreq : nat := 0.
Definition max_vfreq : nat := 1.
Definition min_hfreq_khz : nat := 2.
Definition max_hfreq_khz : nat := 3.
Definition pixel_clock_mhz : nat := 4.
Definition flags : nat := 5.
Definition formula_pad : nat := 6.
End MonitorRange.

Module DataString.
Definition sizeof_str : nat := 13.
Definition str : nat := 0.
End DataString.

Definition edid_wf (edid : list Z) : Prop := bytes_wf Edid.sizeof edid.
Definition std_timing_wf (st : list Z) : Prop := bytes_wf StdTiming.sizeof st.
Definition detailed_timing_wf (dt : list Z) : Prop :=
  bytes_wf DetailedTiming.sizeof dt.

(** ** Named constants

    The enumerators and flag macros that the encoder uses by name are
    declared in igt_edid.h and in the DRM headers, not in the sources at
    hand: the encoder is modelled for arbitrary values of them. *)
Class edid_constants : Type := {
  STD_TIMING_4_3 : Z;
  STD_TIMING_16_9 : Z;
  EDID_DETAIL_MONITOR_NAME : Z;
  EDID_DETAIL_MONITOR_RANGE : Z;
  EDID_DETAIL_MONITOR_STRING : Z;
  EDID_DETAIL_MONITOR_SERIAL : Z;
  EDID_PT_HSYNC_POSITIVE : Z;
  EDID_PT_VSYNC_POSITIVE : Z;
  DRM_MODE_FLAG_PHSYNC : Z;
  DRM_MODE_FLAG_PVSYNC : Z
}.

(** The values that E-EDID 1.3 and the DRM interface give to these
    names, to run the encoder on concrete inputs. *)
Definition edid_1_3 : edid_constants := {|
  STD_TIMING_4_3 := 1;
  STD_TIMING_16_9 := 3;
  EDID_DETAIL_MONITOR_NAME := 0xfc;
  EDID_DETAIL_MONITOR_RANGE := 0xfd;
  EDID_DETAIL_MONITOR_STRING := 0xfe;
  EDID_DETAIL_MONITOR_SERIAL := 0xff;
  EDID_PT_HSYNC_POSITIVE := 2;
  EDID_PT_VSYNC_POSITIVE := 4;
  DRM_MODE_FLAG_PHSYNC := 1;
  DRM_MODE_FLAG_PVSYNC := 4
|}.

(** ** Display modes

    The members of libdrm's [drmModeModeInfo] that the encoder reads:
    [clock] (kHz), [vrefresh] and [flags] are [uint32_t], the timings
    are [uint16_t]. *)
Record drmModeModeInfo : Type := {
  clock : Z;
  hdisplay : Z;
  hsync_start : Z;
  hsync_end : Z;
  htotal : Z;
  vdisplay : Z;
  vsync_start : Z;
  vsync_end : Z;
  vtotal : Z;
  vrefresh : Z;
  flags : Z
}.

Definition is_u16 (x : Z) : Prop := 0 <= x < 2 ^ 16.
Definition is_u32 (x : Z) : Prop := 0 <= x < 2 ^ 32.

Definition mode_wf (mode : drmModeModeInfo) : Prop :=
  is_u32 (clock mode) /\
  (is_u16 (hdisplay mode) /\ is_u16 (hsync_start mode) /\
   is_u16 (hsync_end mode) /\ is_u16 (htotal mode)) /\
  (is_u16 (vdisplay mode) /\ is_u16 (vsync_start mode) /\
   is_u16 (vsync_end mode) /\ is_u16 (vtotal mode)) /\
  is_u32 (vrefresh mode) /\ is_u32 (flags mode).

(** ** The encoder *)

Definition edid_header : list Z :=
  [0x00; 0xff; 0xff; 0xff; 0xff; 0xff; 0xff; 0x00].

Definition monitor_range_padding : list Z :=
  [0x0a; 0x20; 0x20; 0x20; 0x20; 0x20; 0x20].

(** [f] applied in place to the [len]-byte member at [off]. *)
Definition at_member (buf : list Z) (off len : nat)
    (f : list Z -> option (list Z)) : option (list Z) :=
  m ← f (sub buf off len); Some (memcpy buf off m).

(** vfreq is in Hz *)
Definition std_timing_set (st : list Z) (hsize vfreq aspect : Z)
  : option (list Z) :=
  assert ((256 <=? hsize) && (hsize <=? 2288)) ;;
  let st := store st StdTiming.hsize (hsize ÷ 8 - 31) in
  let st := store st StdTiming.vfreq_aspect
                  (Z.lor (Z.shiftl aspect 6) (vfreq - 60)) in
  Some st.

Definition std_timing_unset (st : list Z) : list Z :=
  memset 0x01 StdTiming.sizeof.

Section Encoder.
Context {C : edid_constants}.

(** detailed_timing_set_mode: fill a detailed timing based on a mode *)
Definition detailed_timing_set_mode (dt : list Z) (mode : drmModeModeInfo)
    (width_mm height_mm : Z) : option (list Z) :=
  let pt := DetailedTiming.data in
  let hactive := hdisplay mode in
  let hsync_offset := hsync_start mode - hdisplay mode in
  let hsync_pulse_width := hsync_end mode - hsync_start mode in
  let hblank := htotal mode - hdisplay mode in
  let vactive := vdisplay mode in
  let vsync_offset := vsync_start mode - vdisplay mode in
  let vsync_pulse_width := vsync_end mode - vsync_start mode in
  let vblank := vtotal mode - vdisplay mode in
  let dt := store dt (DetailedTiming.pixel_clock 0)
                  (Z.land (clock mode / 10) 0x00FF) in
  let dt := store dt (DetailedTiming.pixel_clock 1)
                  (Z.shiftr (Z.land (clock mode / 10) 0xFF00) 8) in
  assert (hactive <=? 0xFFF) ;;
  assert (hblank <=? 0xFFF) ;;
  let dt := store dt (pt + PixelTiming.hactive_lo) (Z.land hactive 0x0FF) in
  let dt := store dt (pt + PixelTiming.hblank_lo) (Z.land hblank 0x0FF) in
  let dt := store dt (pt + PixelTiming.hactive_hblank_hi)
                  (Z.lor (Z.shiftr (Z.land hactive 0xF00) 4)
                         (Z.shiftr (Z.land hblank 0xF00) 8)) in
  assert (vactive <=? 0xFFF) ;;
  assert (vblank <=? 0xFFF) ;;
  let dt := store dt (pt + PixelTiming.vactive_lo) (Z.land vactive 0x0FF) in
  let dt := store dt (pt + PixelTiming.vblank_lo) (Z.land vblank 0x0FF) in
  let dt := store dt (pt + PixelTiming.vactive_vblank_hi)
                  (Z.lor (Z.shiftr (Z.land vactive 0xF00) 4)
                         (Z.shiftr (Z.land vblank 0xF00) 8)) in
  assert (hsync_offset <=? 0x3FF) ;;
  assert (hsync_pulse_width <=? 0x3FF) ;;
  assert (vsync_offset <=? 0x3F) ;;
  assert (vsync_pulse_width <=? 0x3F) ;;
  let dt := store dt (pt + PixelTiming.hsync_offset_lo)
                  (Z.land hsync_offset 0x0FF) in
  let dt := store dt (pt + PixelTiming.hsync_pulse_width_lo)
                  (Z.land hsync_pulse_width 0x0FF) in
  let dt := store dt (pt + PixelTiming.vsync_offset_pulse_width_lo)
                  (Z.lor (Z.shiftl (Z.land vsync_offset 0xF) 4)
                         (Z.land vsync_pulse_width 0xF)) in
  let dt := store dt (pt + PixelTiming.hsync_vsync_offset_pulse_width_hi)
                  (Z.lor
                     (Z.lor
                        (Z.lor (Z.shiftr (Z.land hsync_offset 0x300) 2)
                               (Z.shiftr (Z.land hsync_pulse_width 0x300) 4))
                        (Z.shiftr (Z.land vsync_offset 0x30) 2))
                     (Z.shiftr (Z.land vsync_pulse_width 0x30) 4)) in
  assert (width_mm <=? 0xFFF) ;;
  assert (height_mm <=? 0xFFF) ;;
  let dt := store dt (pt + PixelTiming.width_mm_lo)
                  (Z.land width_mm 0x0FF) in
  let dt := store dt (pt + PixelTiming.height_mm_lo)
                  (Z.land height_mm 0x0FF) in
  let dt := store dt (pt + PixelTiming.width_height_mm_hi)
                  (Z.lor (Z.shiftr (Z.land width_mm 0xF00) 4)
                         (Z.shiftr (Z.land height_mm 0xF00) 8)) in
  let dt := store dt (pt + PixelTiming.misc) 0 in
  let dt :=
    if Z.land (flags mode) DRM_MODE_FLAG_PHSYNC =? 0 then dt
    else store dt (pt + PixelTiming.misc)
               (Z.lor (load dt (pt + PixelTiming.misc))
                      EDID_PT_HSYNC_POSITIVE) in
  let dt :=
    if Z.land (flags mode) DRM_MODE_FLAG_PVSYNC =? 0 then dt
    else store dt (pt + PixelTiming.misc)
               (Z.lor (load dt (pt + PixelTiming.misc))
                      EDID_PT_VSYNC_POSITIVE) in
  Some dt.

(** detailed_timing_set_monitor_range_mode: set a detailed timing to be
    a monitor range based on a mode.  The arithmetic on [vrefresh] and
    [clock] is unsigned 32-bit; the division by a zero [htotal] is
    undefined and the routine has no result then. *)
Definition detailed_timing_set_monitor_range_mode (dt : list Z)
    (mode : drmModeModeInfo) : option (list Z) :=
  let np := DetailedTiming.data in
  let mr := (np + NonPixel.data)%nat in
  let dt := store dt (DetailedTiming.pixel_clock 1) 0 in
  let dt := store dt (DetailedTiming.pixel_clock 0) 0 in
  let dt := store dt (np + NonPixel.type) EDID_DETAIL_MONITOR_RANGE in
  let dt := store dt (mr + MonitorRange.min_vfreq)
                  (u32 (vrefresh mode - 1)) in
  let dt := store dt (mr + MonitorRange.max_vfreq)
                  (u32 (vrefresh mode + 1)) in
  assert (negb (htotal mode =? 0)) ;;
  let dt := store dt (mr + MonitorRange.min_hfreq_khz)
                  (u32 (clock mode / htotal mode - 1)) in
  let dt := store dt (mr + MonitorRange.max_hfreq_khz)
                  (u32 (clock mode / htotal mode + 1)) in
  let dt := store dt (mr + MonitorRange.pixel_clock_mhz)
                  (u32 (clock mode / 10000 + 1)) in
  let dt := store dt (mr + MonitorRange.flags) 0 in
  Some (memcpy dt (mr + MonitorRange.formula_pad) monitor_range_padding).

(** The [switch] of [detailed_timing_set_string]. *)
Definition is_string_type (type : Z) : bool :=
  (type =? EDID_DETAIL_MONITOR_NAME)
  || (type =? EDID_DETAIL_MONITOR_STRING)
  || (type =? EDID_DETAIL_MONITOR_SERIAL).

(** detailed_timing_set_string: set a detailed timing to be a string *)
Definition detailed_timing_set_string (dt : list Z) (type : Z)
    (str : list Z) : option (list Z) :=
  let np := DetailedTiming.data in
  let ds := (np + NonPixel.data)%nat in
  assert (is_string_type type) ;; (* not a string type *)
  let dt := store dt (DetailedTiming.pixel_clock 1) 0 in
  let dt := store dt (DetailedTiming.pixel_clock 0) 0 in
  let dt := store dt (np + NonPixel.type) type in
  let dt := strncpy dt (ds + DataString.str) str DataString.sizeof_str in
  let len := strlen str in
  let dt :=
    if (len <? DataString.sizeof_str)%nat
    then store dt (ds + DataString.str + len) 10 (* '\n' *)
    else dt in
  Some dt.

Definition edid_set_mfg (edid : list Z) (mfg : list Z) : list Z :=
  let at_sign := 64 (* '@' *) in
  let edid := store edid (Edid.mfg_id + 0)
                    (Z.lor (Z.shiftl (nth 0 mfg 0 - at_sign) 2)
                           (Z.shiftr (nth 1 mfg 0 - at_sign) 3)) in
  let edid := store edid (Edid.mfg_id + 1)
                    (Z.lor (Z.shiftl (nth 1 mfg 0 - at_sign) 5)
                           (nth 2 mfg 0 - at_sign)) in
  edid.

(** Conversion of a real number to an integer type: truncation. *)
Definition Qtrunc (q : Q) : Z := Qnum q ÷ Zpos (Qden q).

(** [gamma] is a [float] in the source; the arithmetic is exact here. *)
Definition edid_set_gamma (edid : list Z) (gamma : Q) : list Z :=
  store edid Edid.gamma (Qtrunc (gamma * 100 - 100)).

(** The loop [for (i = 5; i < STD_TIMINGS_LEN; i++)] of [edid_init]. *)
Definition unset_std_timings_from (edid : list Z) (first : nat) : list Z :=
  fold_left
    (fun edid i =>
       memcpy edid (Edid.standard_timings i)
              (std_timing_unset
                 (sub edid (Edid.standard_timings i) StdTiming.sizeof)))
    (seq first (STD_TIMINGS_LEN - first)) edid.

(** edid_init: initialize an EDID.  [tm_year] is the year that
    [localtime] reports, counted from 1900. *)
Definition edid_init (edid : list Z) (tm_year : Z) : option (list Z) :=
  let edid := memset 0 Edid.sizeof in
  let edid := memcpy edid Edid.header edid_header in
  let edid := edid_set_mfg edid (chars "IGT") in
  let edid := store edid Edid.version 1 in
  let edid := store edid Edid.revision 3 in
  let edid := store edid Edid.input 0x80 in
  let edid := store edid Edid.width_cm 52 in
  let edid := store edid Edid.height_cm 30 in
  let edid := edid_set_gamma edid 2.20%Q in
  let edid := store edid Edid.features 0x02 in
  (* Year of manufacture *)
  let edid := store edid Edid.mfg_year (tm_year - 90) in
  (* Established timings: 640x480 60Hz, 800x600 60Hz, 1024x768 60Hz *)
  let edid := store edid (Edid.established_timings + EstTimings.t1) 0x21 in
  let edid := store edid (Edid.established_timings + EstTimings.t2) 0x08 in
  (* Standard timings *)
  (* 1920x1080 60Hz *)
  edid ← at_member edid (Edid.standard_timings 0) StdTiming.sizeof
           (fun st => std_timing_set st 1920 60 STD_TIMING_16_9);
  (* 1280x720 60Hz *)
  edid ← at_member edid (Edid.standard_timings 1) StdTiming.sizeof
           (fun st => std_timing_set st 1280 60 STD_TIMING_16_9);
  (* 1024x768 60Hz *)
  edid ← at_member edid (Edid.standard_timings 2) StdTiming.sizeof
           (fun st => std_timing_set st 1024 60 STD_TIMING_4_3);
  (* 800x600 60Hz *)
  edid ← at_member edid (Edid.standard_timings 3) StdTiming.sizeof
           (fun st => std_timing_set st 800 60 STD_TIMING_4_3);
  (* 640x480 60Hz *)
  edid ← at_member edid (Edid.standard_timings 4) StdTiming.sizeof
           (fun st => std_timing_set st 640 60 STD_TIMING_4_3);
  Some (unset_std_timings_from edid 5).

(** edid_init_with_mode: initialize an EDID and sets its preferred
    mode *)
Definition edid_init_with_mode (edid : list Z) (tm_year : Z)
    (mode : drmModeModeInfo) : option (list Z) :=
  edid ← edid_init edid tm_year;
  (* Preferred timing *)
  edid ← at_member edid (Edid.detailed_timings 0) DetailedTiming.sizeof
           (fun dt => detailed_timing_set_mode dt mode
                        (load edid Edid.width_cm * 10)
                        (load edid Edid.height_cm * 10));
  edid ← at_member edid (Edid.detailed_timings 1) DetailedTiming.sizeof
           (fun dt => detailed_timing_set_monitor_range_mode dt mode);
  at_member edid (Edid.detailed_timings 2) DetailedTiming.sizeof
    (fun dt => detailed_timing_set_string dt EDID_DETAIL_MONITOR_NAME
                 (chars "IGT")).
End Encoder.

(** edid_update_checksum: compute and update the EDID checksum.  [sum]
    is a [uint8_t], so every addition of the loop wraps. *)
Definition checksum_loop (buf : list Z) : Z :=
  fold_left (fun sum b => u8 (sum + b)) buf 0.

Definition edid_update_checksum (edid : list Z) : list Z :=
  let buf := edid in
  let sum := checksum_loop (take (Edid.sizeof - 1) buf) in
  store edid Edid.checksum (256 - sum).

(** ** Vocabulary of the properties *)

(** Executable form of [bytes_wf], to check concrete images. *)
Definition is_u8b (b : Z) : bool := (0 <=? b) && (b <? 256).

Definition bytes_wfb (n : nat) (buf : list Z) : bool :=
  (length buf =? n)%nat && forallb is_u8b buf.

(** The inputs that a standard timing can encode: a horizontal size
    that is a multiple of 8 in [256, 2288], a refresh rate of 60 Hz plus
    a 6-bit offset, a 2-bit aspect code. *)
Definition valid_std_timing (hsize vfreq aspect : Z) : Prop :=
  hsize mod 8 = 0 /\ 256 <= hsize <= 2288 /\
  60 <= vfreq <= 123 /\ 0 <= aspect < 4.

(** Unpacking of a standard timing: horizontal size, refresh rate and
    aspect code. *)
Definition std_timing_hsize (st : list Z) : Z :=
  (load st StdTiming.hsize + 31) * 8.

Definition std_timing_vfreq (st : list Z) : Z :=
  Z.land (load st StdTiming.vfreq_aspect) 0x3F + 60.

Definition std_timing_aspect (st : list Z) : Z :=
  Z.shiftr (load st StdTiming.vfreq_aspect) 6.

(** The fill of an unused standard-timing slot. *)
Definition std_timing_sentinel : list Z := [0x01; 0x01].

(** The conditions that [detailed_timing_set_mode] asserts. *)
Definition set_mode_accepts (mode : drmModeModeInfo) (width_mm height_mm : Z)
  : bool :=
  (hdisplay mode <=? 0xFFF)
  && (htotal mode - hdisplay mode <=? 0xFFF)
  && (vdisplay mode <=? 0xFFF)
  && (vtotal mode - vdisplay mode <=? 0xFFF)
  && (hsync_start mode - hdisplay mode <=? 0x3FF)
  && (hsync_end mode - hsync_start mode <=? 0x3FF)
  && (vsync_start mode - vdisplay mode <=? 0x3F)
  && (vsync_end mode - vsync_start mode <=? 0x3F)
  && (width_mm <=? 0xFFF)
  && (height_mm <=? 0xFFF).

(** The 16-bit little-endian value of the pixel-clock field. *)
Definition pixel_clock_value (dt : list Z) : Z :=
  load dt (DetailedTiming.pixel_clock 0)
  + 256 * load dt (DetailedTiming.pixel_clock 1).

(** [n] is [c / 10] rounded to the nearest integer: no integer is
    closer to [c / 10] than [n]. *)
Definition nearest_tenth (c n : Z) : Prop :=
  forall k : Z, Z.abs (10 * n - c) <= Z.abs (10 * k - c).

(** [a / b] rounded up. *)
Definition ceil_div (a b : Z) : Z := (a + b - 1) / b.

(** Members of the monitor-range record of a descriptor. *)
Definition range_member (dt : list Z) (member : nat) : Z :=
  load dt (DetailedTiming.data + NonPixel.data + member).

(** The 13-byte payload of a string descriptor. *)
Definition string_payload (dt : list Z) : list Z :=
  sub dt (DetailedTiming.data + NonPixel.data + DataString.str)
      DataString.sizeof_str.

(** Standard-timing slot [i] of a record. *)
Definition std_slot (edid : list Z) (i : nat) : list Z :=
  sub edid (Edid.standard_timings i) StdTiming.sizeof.

(** [st] is in use and unpacks to the given size, rate and aspect. *)
Definition std_timing_encodes (st : list Z) (hsize vfreq aspect : Z) : Prop :=
  st <> std_timing_sentinel /\
  std_timing_hsize st = hsize /\
  std_timing_vfreq st = vfreq /\
  std_timing_aspect st = aspect.

(** ** Concrete inputs *)

(** 1280x720 at 60 Hz, 74.25 MHz, both sync polarities positive. *)
Definition mode_720p : drmModeModeInfo := {|
  clock := 74250;
  hdisplay := 1280; hsync_start := 1390; hsync_end := 1430; htotal := 1650;
  vdisplay := 720; vsync_start := 725; vsync_end := 730; vtotal := 750;
  vrefresh := 60; flags := 5
|}.

(** The same timings at 59.94 Hz: 74.176 MHz. *)
Definition mode_720p_5994 : drmModeModeInfo := {|
  clock := 74176;
  hdisplay := 1280; hsync_start := 1390; hsync_end := 1430; htotal := 1650;
  vdisplay := 720; vsync_start := 725; vsync_end := 730; vtotal := 750;
  vrefresh := 60; flags := 5
|}.

(** 800x600 at 60 Hz: 40 MHz. *)
Definition mode_800x600 : drmModeModeInfo := {|
  clock := 40000;
  hdisplay := 800; hsync_start := 840; hsync_end := 968; htotal := 1056;
  vdisplay := 600; vsync_start := 601; vsync_end := 605; vtotal := 628;
  vrefresh := 60; flags := 5
|}.

(** 3840x2160 with a 655.36 MHz pixel clock (about 66 Hz). *)
Definition mode_2160p_fast : drmModeModeInfo := {|
  clock := 655360;
  hdisplay := 3840; hsync_start := 4016; hsync_end := 4104; htotal := 4400;
  vdisplay := 2160; vsync_start := 2168; vsync_end := 2178; vtotal := 2250;
  vrefresh := 66; flags := 5
|}.

(** A zeroed descriptor and a zeroed record. *)
Definition zero_descriptor : list Z := memset 0 DetailedTiming.sizeof.
Definition zero_edid : list Z := memset 0 Edid.sizeof.

(** The record that [edid_init_with_mode] builds for 1280x720 in 2019,
    before its checksum is computed. *)
Definition edid_720p : list Z :=
  default zero_edid
    (edid_init_with_mode (C := edid_1_3) zero_edid 119 mode_720p).

(** ** Unpacking of the other fields *)

(** The [n]-bit field of [x] that starts at bit [lo]. *)
Definition bits (x lo n : Z) : Z := (x / 2 ^ lo) mod 2 ^ n.

(** The three 5-bit letter codes of the manufacturer id, the first in
    the high bits of the first byte. *)
Definition mfg_letter0 (edid : list Z) : Z :=
  Z.land (Z.shiftr (load edid Edid.mfg_id) 2) 0x1F.

Definition mfg_letter1 (edid : list Z) : Z :=
  Z.lor (Z.shiftl (Z.land (load edid Edid.mfg_id) 0x3) 3)
        (Z.shiftr (load edid (Edid.mfg_id + 1)) 5).

Definition mfg_letter2 (edid : list Z) : Z :=
  Z.land (load edid (Edid.mfg_id + 1)) 0x1F.

(** Members of the pixel timing of a descriptor. *)
Definition pt_member (dt : list Z) (member : nat) : Z :=
  load dt (DetailedTiming.data + member).

(** A 12-bit value kept as a low byte and a nibble of a shared byte. *)
Definition pt_hactive (dt : list Z) : Z :=
  pt_member dt PixelTiming.hactive_lo
  + 256 * Z.shiftr (pt_member dt PixelTiming.hactive_hblank_hi) 4.

Definition pt_hblank (dt : list Z) : Z :=
  pt_member dt PixelTiming.hblank_lo
  + 256 * Z.land (pt_member dt PixelTiming.hactive_hblank_hi) 0xF.

Definition pt_vactive (dt : list Z) : Z :=
  pt_member dt PixelTiming.vactive_lo
  + 256 * Z.shiftr (pt_member dt PixelTiming.vactive_vblank_hi) 4.

Definition pt_vblank (dt : list Z) : Z :=
  pt_member dt PixelTiming.vblank_lo
  + 256 * Z.land (pt_member dt PixelTiming.vactive_vblank_hi) 0xF.

(** The sync fields: 10 bits for the horizontal ones, 6 bits for the
    vertical ones, their high bits two by two in one byte. *)
Definition pt_hsync_offset (dt : list Z) : Z :=
  pt_member dt PixelTiming.hsync_offset_lo
  + 256 * Z.shiftr
            (pt_member dt PixelTiming.hsync_vsync_offset_pulse_width_hi) 6.

Definition pt_hsync_pulse_width (dt : list Z) : Z :=
  pt_member dt PixelTiming.hsync_pulse_width_lo
  + 256 * Z.land
            (Z.shiftr
               (pt_member dt PixelTiming.hsync_vsync_offset_pulse_width_hi) 4)
            0x3.

Definition pt_vsync_offset (dt : list Z) : Z :=
  Z.shiftr (pt_member dt PixelTiming.vsync_offset_pulse_width_lo) 4
  + 16 * Z.land
           (Z.shiftr
              (pt_member dt PixelTiming.hsync_vsync_offset_pulse_width_hi) 2)
           0x3.

Definition pt_vsync_pulse_width (dt : list Z) : Z :=
  Z.land (pt_member dt PixelTiming.vsync_offset_pulse_width_lo) 0xF
  + 16 * Z.land
           (pt_member dt PixelTiming.hsync_vsync_offset_pulse_width_hi) 0x3.

Definition pt_width_mm (dt : list Z) : Z :=
  pt_member dt PixelTiming.width_mm_lo
  + 256 * Z.shiftr (pt_member dt PixelTiming.width_height_mm_hi) 4.

Definition pt_height_mm (dt : list Z) : Z :=
  pt_member dt PixelTiming.height_mm_lo
  + 256 * Z.land (pt_member dt PixelTiming.width_height_mm_hi) 0xF.

(** Descriptor slot [i] of a record. *)
Definition descriptor (edid : list Z) (i : nat) : list Z :=
  sub edid (Edid.detailed_timings i) DetailedTiming.sizeof.

(** The 1280x720 timings with an htotal below the active width. *)
Definition mode_short_htotal : drmModeModeInfo := {|
  clock := 74250;
  hdisplay := 1280; hsync_start := 1390; hsync_end := 1430; htotal := 1000;
  vdisplay := 720; vsync_start := 725; vsync_end := 730; vtotal := 750;
  vrefresh := 60; flags := 5
|}.

(** A descriptor whose bytes are all 0xAA. *)
Definition stale_descriptor : list Z := memset 0xAA DetailedTiming.sizeof.

(** A name of 13 characters, which fills the payload. *)
Definition long_name : list Z := chars "IGT-MONITOR-X".

(** ** Properties of byte images *)

Lemma u8_range x : is_u8 (u8 x).
Proof. unfold is_u8, u8. apply Z.mod_pos_bound. lia. Qed.

Lemma u8_id x : is_u8 x -> u8 x = x.
Proof. unfold is_u8, u8. intros H. apply Z.mod_small. exact H. Qed.

Lemma u8_idemp x : u8 (u8 x) = u8 x.
Proof. apply u8_id, u8_range. Qed.

Lemma length_store buf off v : length (store buf off v) = length buf.
Proof. unfold store. apply length_insert. Qed.

Lemma store_wf n buf off v : bytes_wf n buf -> bytes_wf n (store buf off v).
Proof.
  intros [Hlen Hall]. split.
  - rewrite length_store. exact Hlen.
  - unfold store. apply Forall_insert; [exact Hall | apply u8_range].
Qed.

Lemma bytes_wfb_ok n buf : bytes_wfb n buf = true -> bytes_wf n buf.
Proof.
  unfold bytes_wfb, bytes_wf. intros H.
  apply andb_true_iff in H. destruct H as [Hlen Hall]. split.
  - apply Nat.eqb_eq. exact Hlen.
  - apply Forall_forall. intros b Hb.
    rewrite forallb_forall in Hall. specialize (Hall b).
    unfold is_u8b in Hall. rewrite andb_true_iff in Hall.
    unfold is_u8. rewrite <- Z.leb_le, <- Z.ltb_lt.
    apply Hall. exact Hb.
Qed.

Lemma load_store_eq buf off v :
  (off < length buf)%nat -> load (store buf off v) off = u8 v.
Proof.
  intros Hlt. unfold load, store.
  apply nth_lookup_Some. apply list_lookup_insert_eq. exact Hlt.
Qed.

Lemma load_store_ne buf off off' v :
  off <> off' -> load (store buf off v) off' = load buf off'.
Proof.
  intros Hne. unfold load, store.
  rewrite !nth_lookup. rewrite list_lookup_insert_ne by exact Hne. reflexivity.
Qed.

Lemma take_store_le buf off n v :
  (n <= off)%nat -> take n (store buf off v) = take n buf.
Proof. intros Hle. unfold store. apply take_insert_ge. exact Hle. Qed.

Lemma byte_sum_app l1 l2 : byte_sum (l1 ++ l2) = byte_sum l1 + byte_sum l2.
Proof.
  unfold byte_sum. induction l1 as [|b l1 IH]; simpl; [reflexivity|].
  rewrite IH. lia.
Qed.

(** The wrapping loop computes the plain sum modulo 256, whatever the
    starting value of the accumulator. *)
Lemma fold_wrap_sum buf acc :
  fold_left (fun sum b => u8 (sum + b)) buf acc mod 256
  = (acc + byte_sum buf) mod 256.
Proof.
  revert acc. induction buf as [|b buf IH]; intros acc; simpl.
  - f_equal. lia.
  - rewrite IH. unfold u8, byte_sum. simpl.
    rewrite Zplus_mod_idemp_l. f_equal. lia.
Qed.

Lemma fold_wrap_range buf acc :
  is_u8 acc -> is_u8 (fold_left (fun sum b => u8 (sum + b)) buf acc).
Proof.
  revert acc. induction buf as [|b buf IH]; intros acc Hacc; simpl.
  - exact Hacc.
  - apply IH, u8_range.
Qed.

Lemma checksum_loop_spec buf : checksum_loop buf = byte_sum buf mod 256.
Proof.
  unfold checksum_loop.
  pose proof (fold_wrap_sum buf 0) as Hsum. rewrite Z.add_0_l in Hsum.
  rewrite <- Hsum. symmetry. apply Z.mod_small.
  apply (fold_wrap_range buf 0). unfold is_u8. lia.
Qed.

(** A record is its first 127 bytes followed by the checksum byte. *)
Lemma edid_split (edid : list Z) :
  edid_wf edid ->
  edid = take 127 edid ++ [load edid Edid.checksum].
Proof.
  intros [Hlen _]. unfold load, Edid.checksum.
  change Edid.sizeof with 128%nat in Hlen.
  rewrite <- (take_drop 127 edid) at 1. f_equal.
  destruct (nth_lookup_or_length edid 127 0) as [Hnth | Hge]; [|lia].
  rewrite (drop_S _ _ _ Hnth). rewrite drop_ge by lia. reflexivity.
Qed.

Lemma edid_update_checksum_wf edid :
  edid_wf edid -> edid_wf (edid_update_checksum edid).
Proof. intros H. unfold edid_update_checksum. apply store_wf. exact H. Qed.

Lemma edid_update_checksum_prefix edid :
  take 127 (edid_update_checksum edid) = take 127 edid.
Proof.
  unfold edid_update_checksum. apply take_store_le. unfold Edid.checksum. lia.
Qed.

Lemma edid_update_checksum_byte edid :
  edid_wf edid ->
  load (edid_update_checksum edid) Edid.checksum
  = (256 - byte_sum (take 127 edid) mod 256) mod 256.
Proof.
  intros [Hlen _]. unfold edid_update_checksum.
  rewrite load_store_eq.
  - rewrite checksum_loop_spec. reflexivity.
  - rewrite Hlen. unfold Edid.checksum, Edid.sizeof. lia.
Qed.

(** ** The checksum finalizer *)

(** C1: on every 128-byte record, [edid_update_checksum] sets byte 127
    to [(256 - s) mod 256], [s] being the sum of bytes 0..126 modulo
    256, and afterwards the sum of all 128 bytes is 0 modulo 256. *)
Theorem edid_update_checksum_sum_zero (edid : list Z) :
  edid_wf edid ->
  let s := byte_sum (take 127 edid) mod 256 in
  load (edid_update_checksum edid) 127 = (256 - s) mod 256 /\
  byte_sum (edid_update_checksum edid) mod 256 = 0.
Proof.
  intros Hwf s. split.
  - apply (edid_update_checksum_byte edid Hwf).
  - rewrite (edid_split _ (edid_update_checksum_wf edid Hwf)).
    rewrite edid_update_checksum_prefix, byte_sum_app.
    rewrite (edid_update_checksum_byte edid Hwf). fold s.
    unfold byte_sum at 2. simpl. rewrite Z.add_0_r.
    rewrite Zplus_mod_idemp_r.
    rewrite <- Zplus_mod_idemp_l. fold s.
    replace (s + (256 - s)) with 256 by lia. reflexivity.
Qed.

(** C9: running [edid_update_checksum] a second time on a record that
    was not modified in between changes nothing: neither the checksum
    byte nor any other byte. *)
Theorem edid_update_checksum_idempotent (edid : list Z) :
  edid_wf edid ->
  load (edid_update_checksum (edid_update_checksum edid)) Edid.checksum
  = load (edid_update_checksum edid) Edid.checksum /\
  edid_update_checksum (edid_update_checksum edid)
  = edid_update_checksum edid.
Proof.
  intros Hwf.
  assert (Heq : edid_update_checksum (edid_update_checksum edid)
                = edid_update_checksum edid).
  { unfold edid_update_checksum at 1.
    change (Edid.sizeof - 1)%nat with 127%nat.
    rewrite edid_update_checksum_prefix.
    unfold edid_update_checksum, store.
    change (Edid.sizeof - 1)%nat with 127%nat.
    apply list_insert_insert_eq. }
  split; [rewrite Heq; reflexivity | exact Heq].
Qed.

(** C10: [edid_update_checksum] writes the checksum byte only: the
    record keeps its size and every byte at an offset from 0 to 126 is
    the one it was before the call. *)
Theorem edid_update_checksum_frame (edid : list Z) (off : nat) :
  edid_wf edid ->
  (off < 127)%nat ->
  length (edid_update_checksum edid) = length edid /\
  load (edid_update_checksum edid) off = load edid off.
Proof.
  intros Hwf Hoff. unfold edid_update_checksum. split.
  - apply length_store.
  - apply load_store_ne. unfold Edid.checksum. lia.
Qed.

(** ** Bit fields *)

Lemma testbit_small v k n :
  0 <= v < 2 ^ k -> k <= n -> Z.testbit v n = false.
Proof.
  intros Hv Hkn.
  destruct (Z.eq_dec v 0) as [-> | Hnz]; [apply Z.bits_0|].
  apply Z.bits_above_log2; [lia|].
  assert (Z.log2 v < k); [|lia].
  apply Z.log2_lt_pow2; lia.
Qed.

(** A field shifted left by [k] and a [k]-bit field do not overlap. *)
Lemma lor_shiftl_small a v k :
  0 <= k -> 0 <= v < 2 ^ k -> Z.lor (Z.shiftl a k) v = a * 2 ^ k + v.
Proof.
  intros Hk Hv. rewrite Z.shiftl_mul_pow2 by exact Hk.
  symmetry. apply Z.add_nocarry_lor.
  apply Z.bits_inj'. intros n Hn.
  rewrite Z.land_spec, Z.bits_0.
  destruct (Z.lt_ge_cases n k) as [Hlt | Hge].
  - rewrite Z.mul_pow2_bits_low by exact Hlt. reflexivity.
  - rewrite (testbit_small v k n) by assumption. apply andb_false_r.
Qed.

Lemma land_low_bits x k : 0 <= k -> Z.land x (2 ^ k - 1) = x mod 2 ^ k.
Proof.
  intros Hk. rewrite <- Z.land_ones by exact Hk.
  rewrite Z.ones_equiv. reflexivity.
Qed.

(** ** Standard timings *)

Lemma std_timing_set_bytes st hsize vfreq aspect :
  std_timing_wf st ->
  256 <= hsize <= 2288 ->
  std_timing_set st hsize vfreq aspect
  = Some [u8 (hsize ÷ 8 - 31);
          u8 (Z.lor (Z.shiftl aspect 6) (vfreq - 60))].
Proof.
  intros [Hlen _] Hh. unfold std_timing_set, assert.
  replace ((256 <=? hsize) && (hsize <=? 2288)) with true
    by (symmetry; apply andb_true_iff; split; apply Z.leb_le; lia).
  destruct st as [|b0 [|b1 [|b2 st]]]; try discriminate Hlen.
  reflexivity.
Qed.

Lemma std_timing_hsize_byte hsize :
  256 <= hsize <= 2288 -> u8 (hsize ÷ 8 - 31) = hsize / 8 - 31.
Proof.
  intros Hh. rewrite Z.quot_div_nonneg by lia.
  apply u8_id. unfold is_u8.
  assert (32 <= hsize / 8) by (apply Z.div_le_lower_bound; lia).
  assert (hsize / 8 < 287) by (apply Z.div_lt_upper_bound; lia).
  lia.
Qed.

Lemma std_timing_vfreq_aspect_byte vfreq aspect :
  60 <= vfreq <= 123 -> 0 <= aspect < 4 ->
  u8 (Z.lor (Z.shiftl aspect 6) (vfreq - 60)) = aspect * 64 + (vfreq - 60).
Proof.
  intros Hv Ha.
  rewrite (lor_shiftl_small aspect (vfreq - 60) 6) by lia.
  change (2 ^ 6) with 64. apply u8_id. unfold is_u8. lia.
Qed.

(** Unpacking the two bytes that [std_timing_set] stores. *)
Lemma std_timing_bytes_unpack hsize vfreq aspect :
  valid_std_timing hsize vfreq aspect ->
  let st := [u8 (hsize ÷ 8 - 31);
             u8 (Z.lor (Z.shiftl aspect 6) (vfreq - 60))] in
  std_timing_hsize st = hsize /\
  std_timing_vfreq st = vfreq /\
  std_timing_aspect st = aspect.
Proof.
  intros (Hmul & Hh & Hv & Ha).
  unfold std_timing_hsize, std_timing_vfreq, std_timing_aspect, load.
  cbn [nth StdTiming.hsize StdTiming.vfreq_aspect].
  rewrite std_timing_hsize_byte by exact Hh.
  rewrite std_timing_vfreq_aspect_byte by assumption.
  repeat split.
  - pose proof (Z.div_mod hsize 8) as Hdm. lia.
  - change 0x3F with (2 ^ 6 - 1). rewrite land_low_bits by lia.
    change (2 ^ 6) with 64.
    replace (aspect * 64 + (vfreq - 60)) with (vfreq - 60 + aspect * 64)
      by lia.
    rewrite Z.mod_add by lia. rewrite Z.mod_small by lia. lia.
  - rewrite Z.shiftr_div_pow2 by lia. change (2 ^ 6) with 64.
    rewrite Z.div_add_l by lia. rewrite Z.div_small by lia. lia.
Qed.

(** C2: for a horizontal size that is a multiple of 8 in [256, 2288], a
    refresh rate from 60 to 123 and a 2-bit aspect code,
    [std_timing_set] succeeds and unpacking its two bytes gives the
    three inputs back: (byte0 + 31) * 8 = hsize, byte1 >> 6 = aspect and
    (byte1 & 0x3F) + 60 = vfreq. *)
Theorem std_timing_set_roundtrip (st : list Z) (hsize vfreq aspect : Z) :
  std_timing_wf st ->
  valid_std_timing hsize vfreq aspect ->
  exists st',
    std_timing_set st hsize vfreq aspect = Some st' /\
    (load st' 0 + 31) * 8 = hsize /\
    Z.shiftr (load st' 1) 6 = aspect /\
    Z.land (load st' 1) 0x3F + 60 = vfreq.
Proof.
  intros Hwf Hvalid.
  pose proof (std_timing_bytes_unpack hsize vfreq aspect Hvalid)
    as (Hh & Hv & Ha).
  destruct Hvalid as (_ & Hrange & _).
  eexists. split; [apply (std_timing_set_bytes st); assumption|].
  split; [exact Hh | split; [exact Ha | exact Hv]].
Qed.

(** C3, as amended: among the valid inputs of [std_timing_set] exactly
    one, hsize = 256 with vfreq = 61 and aspect code 0, is encoded as
    the two 0x01 bytes that [std_timing_unset] writes; the encoding of
    every other valid input differs from that fill. *)
Theorem std_timing_sentinel_only_collision
    (st : list Z) (hsize vfreq aspect : Z) :
  std_timing_wf st ->
  valid_std_timing hsize vfreq aspect ->
  std_timing_unset st = [0x01; 0x01] /\
  (std_timing_set st hsize vfreq aspect = Some (std_timing_unset st)
   <-> hsize = 256 /\ vfreq = 61 /\ aspect = 0).
Proof.
  intros Hwf (Hmul & Hh & Hv & Ha). split; [reflexivity|].
  rewrite (std_timing_set_bytes st) by assumption.
  rewrite std_timing_hsize_byte by exact Hh.
  rewrite std_timing_vfreq_aspect_byte by assumption.
  unfold std_timing_unset, memset. cbn [replicate StdTiming.sizeof].
  change (u8 1) with 1.
  pose proof (Z.div_mod hsize 8) as Hdm.
  split.
  - intros Heq. injection Heq as H0 H1. lia.
  - intros (-> & -> & ->). reflexivity.
Qed.

(** C3, as stated, fails: 256 pixels at 61 Hz with aspect code 0 is a
    valid input and its encoding is the fill of an unused slot. *)
Lemma std_timing_sentinel_collision :
  valid_std_timing 256 61 0 /\
  std_timing_set [0; 0] 256 61 0 = Some [0x01; 0x01] /\
  std_timing_unset [0; 0] = [0x01; 0x01].
Proof.
  split; [|split]; [|reflexivity|reflexivity].
  unfold valid_std_timing. repeat split; lia.
Qed.

(** ** Detailed descriptors *)

Lemma length_memcpy buf off src :
  (off + length src <= length buf)%nat ->
  length (memcpy buf off src) = length buf.
Proof.
  intros Hle. unfold memcpy.
  rewrite !length_app, length_take, length_drop. lia.
Qed.

Lemma load_memcpy_lt buf off src i :
  (i < off)%nat -> (off <= length buf)%nat ->
  load (memcpy buf off src) i = load buf i.
Proof.
  intros Hi Hoff. unfold load, memcpy.
  rewrite !nth_lookup.
  rewrite lookup_app_l by (rewrite length_take; lia).
  rewrite lookup_take_lt by exact Hi. reflexivity.
Qed.

Lemma sub_memcpy buf off src n :
  n = length src ->
  (off <= length buf)%nat ->
  sub (memcpy buf off src) off n = src.
Proof.
  intros -> Hoff. unfold sub, memcpy.
  rewrite drop_app_length' by (rewrite length_take; lia).
  apply take_app_length.
Qed.

Lemma sub_store buf off len i v :
  (i < len)%nat ->
  sub (store buf (off + i) v) off len = <[i := u8 v]> (sub buf off len).
Proof.
  intros Hi. unfold sub, store.
  rewrite drop_insert_ge by lia.
  replace (off + i - off)%nat with i by lia.
  apply take_insert_lt. exact Hi.
Qed.

Lemma assert_true (A : Type) (k : option A) : (assert true ;; k) = k.
Proof. reflexivity. Qed.

(** Reads of a member after a sequence of stores to constant offsets. *)
Ltac offsets_differ := lia.

Ltac norm_offsets :=
  cbv [DetailedTiming.pixel_clock DetailedTiming.data
       PixelTiming.hactive_lo PixelTiming.hblank_lo
       PixelTiming.hactive_hblank_hi PixelTiming.vactive_lo
       PixelTiming.vblank_lo PixelTiming.vactive_vblank_hi
       PixelTiming.hsync_offset_lo PixelTiming.hsync_pulse_width_lo
       PixelTiming.vsync_offset_pulse_width_lo
       PixelTiming.hsync_vsync_offset_pulse_width_hi
       PixelTiming.width_mm_lo PixelTiming.height_mm_lo
       PixelTiming.width_height_mm_hi PixelTiming.misc
       NonPixel.type NonPixel.data
       MonitorRange.min_vfreq MonitorRange.max_vfreq
       MonitorRange.min_hfreq_khz MonitorRange.max_hfreq_khz
       MonitorRange.pixel_clock_mhz MonitorRange.flags
       MonitorRange.formula_pad DataString.str DataString.sizeof_str
       Nat.add].

Ltac load_stores :=
  norm_offsets;
  repeat first
    [ rewrite load_store_ne by offsets_differ
    | rewrite load_store_eq by (rewrite ?length_store; lia) ].

(** [strncpy] always fills the [n] bytes of the destination. *)
Lemma length_strncpy_bytes src n : length (strncpy_bytes src n) = n.
Proof.
  revert src. induction n as [|n IH]; intros src; [reflexivity|].
  cbn [strncpy_bytes].
  destruct src as [|c src]; [apply length_replicate|].
  destruct (c =? 0); [apply length_replicate|].
  cbn [length]. rewrite IH. reflexivity.
Qed.

(** A string shorter than [n] is copied whole and padded with NULs. *)
Lemma strncpy_bytes_short src n :
  (strlen src < n)%nat ->
  strncpy_bytes src n
  = take (strlen src) src ++ replicate (n - strlen src) 0.
Proof.
  revert src. induction n as [|n IH]; intros src Hlt; [lia|].
  cbn [strncpy_bytes].
  destruct src as [|c src]; [reflexivity|].
  cbn [strlen] in *. destruct (c =? 0); [reflexivity|].
  cbn [take app]. rewrite IH by lia. reflexivity.
Qed.

(** A string of at least [n] characters is cut after [n] of them. *)
Lemma strncpy_bytes_long src n :
  (n <= strlen src)%nat -> strncpy_bytes src n = take n src.
Proof.
  revert src. induction n as [|n IH]; intros src Hle; [reflexivity|].
  cbn [strncpy_bytes].
  destruct src as [|c src]; [cbn [strlen] in Hle; lia|].
  cbn [strlen] in Hle. destruct (c =? 0); [lia|].
  cbn [take]. rewrite IH by lia. reflexivity.
Qed.

Lemma strlen_le_length src : (strlen src <= length src)%nat.
Proof.
  induction src as [|c src IH]; [reflexivity|].
  cbn [strlen length]. destruct (c =? 0); lia.
Qed.

Section Descriptors.
Context {C : edid_constants}.

Lemma set_mode_accepts_spec mode width_mm height_mm :
  set_mode_accepts mode width_mm height_mm = true ->
  ((hdisplay mode <=? 0xFFF) = true /\
   (htotal mode - hdisplay mode <=? 0xFFF) = true) /\
  ((vdisplay mode <=? 0xFFF) = true /\
   (vtotal mode - vdisplay mode <=? 0xFFF) = true) /\
  ((hsync_start mode - hdisplay mode <=? 0x3FF) = true /\
   (hsync_end mode - hsync_start mode <=? 0x3FF) = true /\
   (vsync_start mode - vdisplay mode <=? 0x3F) = true /\
   (vsync_end mode - vsync_start mode <=? 0x3F) = true) /\
  (width_mm <=? 0xFFF) = true /\ (height_mm <=? 0xFFF) = true.
Proof.
  unfold set_mode_accepts. rewrite !andb_true_iff. tauto.
Qed.

(** When its assertions hold, [detailed_timing_set_mode] returns a
    descriptor of the same size whose first two bytes are the two low
    bytes of [clock / 10]. *)
Lemma detailed_timing_set_mode_some dt mode width_mm height_mm :
  detailed_timing_wf dt ->
  set_mode_accepts mode width_mm height_mm = true ->
  exists dt',
    detailed_timing_set_mode dt mode width_mm height_mm = Some dt' /\
    length dt' = 18%nat /\
    load dt' 0 = u8 (Z.land (clock mode / 10) 0x00FF) /\
    load dt' 1 = u8 (Z.shiftr (Z.land (clock mode / 10) 0xFF00) 8).
Proof.
  intros [Hlen _] Hacc. change DetailedTiming.sizeof with 18%nat in Hlen.
  apply set_mode_accepts_spec in Hacc.
  destruct Hacc as ((H1 & H2) & (H3 & H4) & (H5 & H6 & H7 & H8) & H9 & H10).
  unfold detailed_timing_set_mode. cbv zeta.
  rewrite H1, H2, H3, H4, H5, H6, H7, H8, H9, H10.
  rewrite !assert_true.
  eexists. split; [reflexivity|].
  destruct (Z.land (flags mode) DRM_MODE_FLAG_PHSYNC =? 0);
    destruct (Z.land (flags mode) DRM_MODE_FLAG_PVSYNC =? 0);
    (split; [rewrite !length_store; exact Hlen |]);
    (split; load_stores; reflexivity).
Qed.

Lemma detailed_timing_set_mode_none dt mode width_mm height_mm :
  set_mode_accepts mode width_mm height_mm = false ->
  detailed_timing_set_mode dt mode width_mm height_mm = None.
Proof.
  unfold set_mode_accepts, detailed_timing_set_mode. cbv zeta.
  repeat match goal with
         | |- context [assert ?b] => destruct b; cbn [andb]; [|reflexivity]
         end.
  discriminate.
Qed.
Lemma detailed_timing_set_monitor_range_mode_some dt mode :
  detailed_timing_wf dt ->
  htotal mode <> 0 ->
  exists dt',
    detailed_timing_set_monitor_range_mode dt mode = Some dt' /\
    length dt' = 18%nat /\
    (load dt' 0 = 0 /\ load dt' 1 = 0) /\
    range_member dt' MonitorRange.min_vfreq
    = u8 (u32 (vrefresh mode - 1)) /\
    range_member dt' MonitorRange.max_vfreq
    = u8 (u32 (vrefresh mode + 1)) /\
    range_member dt' MonitorRange.min_hfreq_khz
    = u8 (u32 (clock mode / htotal mode - 1)) /\
    range_member dt' MonitorRange.max_hfreq_khz
    = u8 (u32 (clock mode / htotal mode + 1)) /\
    range_member dt' MonitorRange.pixel_clock_mhz
    = u8 (u32 (clock mode / 10000 + 1)).
Proof.
  intros [Hlen _] Hht. change DetailedTiming.sizeof with 18%nat in Hlen.
  unfold detailed_timing_set_monitor_range_mode. cbv zeta.
  replace (htotal mode =? 0) with false
    by (symmetry; apply Z.eqb_neq; exact Hht).
  cbn [negb]. rewrite assert_true.
  eexists. split; [reflexivity|].
  unfold range_member. norm_offsets.
  split.
  { rewrite length_memcpy; rewrite !length_store; [exact Hlen|].
    cbn [length monitor_range_padding]. lia. }
  repeat split;
    (rewrite load_memcpy_lt by (rewrite ?length_store; lia));
    load_stores; reflexivity.
Qed.

Lemma detailed_timing_set_string_some dt type str :
  detailed_timing_wf dt ->
  is_string_type type = true ->
  exists dt',
    detailed_timing_set_string dt type str = Some dt' /\
    length dt' = 18%nat /\
    (load dt' 0 = 0 /\ load dt' 1 = 0) /\
    string_payload dt'
    = if (strlen str <? 13)%nat
      then <[strlen str := 10]> (strncpy_bytes str 13)
      else strncpy_bytes str 13.
Proof.
  intros [Hlen _] Hty. change DetailedTiming.sizeof with 18%nat in Hlen.
  unfold detailed_timing_set_string. cbv zeta.
  rewrite Hty, assert_true.
  eexists. split; [reflexivity|].
  unfold string_payload, strncpy. norm_offsets.
  assert (Hcpy : length (strncpy_bytes str 13) = 13%nat)
    by apply length_strncpy_bytes.
  destruct (strlen str <? 13)%nat eqn:Hshort.
  - apply Nat.ltb_lt in Hshort.
    split; [|split; [split|]].
    + rewrite length_store, length_memcpy; rewrite !length_store; lia.
    + rewrite load_store_ne by lia.
      rewrite load_memcpy_lt by (rewrite ?length_store; lia).
      load_stores. reflexivity.
    + rewrite load_store_ne by lia.
      rewrite load_memcpy_lt by (rewrite ?length_store; lia).
      load_stores. reflexivity.
    + change (S (S (S (S (S (strlen str)))))) with (5 + strlen str)%nat.
      rewrite sub_store by exact Hshort.
      rewrite sub_memcpy by (rewrite ?length_store; lia).
      reflexivity.
  - split; [|split; [split|]].
    + rewrite length_memcpy; rewrite !length_store; lia.
    + rewrite load_memcpy_lt by (rewrite ?length_store; lia).
      load_stores. reflexivity.
    + rewrite load_memcpy_lt by (rewrite ?length_store; lia).
      load_stores. reflexivity.
    + rewrite sub_memcpy by (rewrite ?length_store; lia).
      reflexivity.
Qed.
End Descriptors.

(** ** The pixel-clock field *)

Lemma u8_u32 x : u8 (u32 x) = x mod 256.
Proof.
  unfold u8, u32. apply Z.mod_mod_divide.
  exists (2 ^ 24). reflexivity.
Qed.

(** The two bytes stored by [detailed_timing_set_mode] are the 16 low
    bits of [clock / 10]. *)
Lemma pixel_clock_bytes x :
  is_u8 (u8 (Z.land x 0x00FF)) /\
  is_u8 (u8 (Z.shiftr (Z.land x 0xFF00) 8)) /\
  u8 (Z.land x 0x00FF) + 256 * u8 (Z.shiftr (Z.land x 0xFF00) 8)
  = x mod 2 ^ 16.
Proof.
  split; [apply u8_range | split; [apply u8_range|]].
  change 0x00FF with (2 ^ 8 - 1). rewrite land_low_bits by lia.
  rewrite Z.shiftr_land. change (Z.shiftr 0xFF00 8) with (2 ^ 8 - 1).
  rewrite land_low_bits by lia.
  rewrite Z.shiftr_div_pow2 by lia.
  unfold u8. change (2 ^ 8) with 256. rewrite !Z.mod_mod by lia.
  change (2 ^ 16) with (256 * 256).
  rewrite Z.rem_mul_r by lia. reflexivity.
Qed.

Section DescriptorClaims.
Context {C : edid_constants}.

(** C5, as amended: when the assertions of [detailed_timing_set_mode]
    hold, the 16-bit little-endian value of the first two descriptor
    bytes is the mode clock divided by 10 and rounded down, reduced
    modulo 2^16: it is [clock / 10] itself for every clock below
    655360 kHz. *)
Theorem detailed_timing_set_mode_pixel_clock
    (dt : list Z) (mode : drmModeModeInfo) (width_mm height_mm : Z) :
  detailed_timing_wf dt ->
  mode_wf mode ->
  set_mode_accepts mode width_mm height_mm = true ->
  exists dt',
    detailed_timing_set_mode dt mode width_mm height_mm = Some dt' /\
    pixel_clock_value dt' = (clock mode / 10) mod 2 ^ 16 /\
    (clock mode < 655360 ->
     pixel_clock_value dt' = clock mode / 10 /\
     10 * pixel_clock_value dt' <= clock mode
     < 10 * pixel_clock_value dt' + 10).
Proof.
  intros Hwf Hmode Hacc.
  destruct (detailed_timing_set_mode_some dt mode width_mm height_mm
              Hwf Hacc) as (dt' & Hrun & _ & Hb0 & Hb1).
  exists dt'. split; [exact Hrun|].
  assert (Hval : pixel_clock_value dt' = (clock mode / 10) mod 2 ^ 16).
  { unfold pixel_clock_value, DetailedTiming.pixel_clock.
    rewrite Hb0, Hb1. apply pixel_clock_bytes. }
  split; [exact Hval|].
  intros Hlt. rewrite Hval.
  destruct Hmode as ([Hc0 _] & _).
  assert (0 <= clock mode / 10 < 2 ^ 16).
  { split; [apply Z.div_pos; lia|].
    apply Z.div_lt_upper_bound; lia. }
  rewrite Z.mod_small by assumption.
  pose proof (Z.div_mod (clock mode) 10) as Hdm.
  pose proof (Z.mod_pos_bound (clock mode) 10) as Hmb.
  lia.
Qed.

(** C4, as amended: when the assertions of [detailed_timing_set_mode]
    hold, one of the two pixel-clock bytes it leaves is nonzero
    exactly when [clock / 10] is not a multiple of 65536 (so for every
    clock from 10 to 655359 kHz); for every mode with a nonzero htotal
    [detailed_timing_set_monitor_range_mode], and for every string
    type and string [detailed_timing_set_string], return a descriptor
    whose two pixel-clock bytes are zero. *)
Theorem detailed_timing_pixel_clock_tag
    (dt : list Z) (mode : drmModeModeInfo) (width_mm height_mm : Z)
    (type : Z) (str : list Z) :
  detailed_timing_wf dt ->
  mode_wf mode ->
  (set_mode_accepts mode width_mm height_mm = true ->
   exists dt',
     detailed_timing_set_mode dt mode width_mm height_mm = Some dt' /\
     ((load dt' 0 <> 0 \/ load dt' 1 <> 0)
      <-> (clock mode / 10) mod 65536 <> 0) /\
     (10 <= clock mode < 655360 -> load dt' 0 <> 0 \/ load dt' 1 <> 0)) /\
  (htotal mode <> 0 ->
   exists dt',
     detailed_timing_set_monitor_range_mode dt mode = Some dt' /\
     load dt' 0 = 0 /\ load dt' 1 = 0) /\
  (is_string_type type = true ->
   exists dt',
     detailed_timing_set_string dt type str = Some dt' /\
     load dt' 0 = 0 /\ load dt' 1 = 0).
Proof.
  intros Hwf Hmode. split; [|split].
  - intros Hacc.
    destruct (detailed_timing_set_mode_some dt mode width_mm height_mm
                Hwf Hacc) as (dt' & Hrun & _ & Hb0 & Hb1).
    exists dt'. split; [exact Hrun|].
    destruct (pixel_clock_bytes (clock mode / 10)) as (Hr0 & Hr1 & Hsum).
    rewrite <- Hb0 in Hr0, Hsum. rewrite <- Hb1 in Hr1, Hsum.
    change (2 ^ 16) with 65536 in Hsum. unfold is_u8 in Hr0, Hr1.
    assert (Hiff : (load dt' 0 <> 0 \/ load dt' 1 <> 0)
                   <-> (clock mode / 10) mod 65536 <> 0) by lia.
    split; [exact Hiff|].
    intros Hclk. apply Hiff.
    assert (1 <= clock mode / 10) by (apply Z.div_le_lower_bound; lia).
    assert (clock mode / 10 < 65536) by (apply Z.div_lt_upper_bound; lia).
    rewrite Z.mod_small by lia. lia.
  - intros Hht.
    destruct (detailed_timing_set_monitor_range_mode_some dt mode Hwf Hht)
      as (dt' & Hrun & _ & Hclk & _).
    exists dt'. split; [exact Hrun | exact Hclk].
  - intros Hty.
    destruct (detailed_timing_set_string_some dt type str Hwf Hty)
      as (dt' & Hrun & _ & Hclk & _).
    exists dt'. split; [exact Hrun | exact Hclk].
Qed.

(** C6, as amended: for every mode with a nonzero htotal,
    [detailed_timing_set_monitor_range_mode] stores in the 8-bit
    members of the range, each reduced modulo 256, vrefresh - 1 and
    vrefresh + 1, clock / htotal - 1 and clock / htotal + 1, and
    clock / 10000 + 1 (integer divisions); the last is the ceiling of
    clock / 10000 when the clock is not a multiple of 10000, and one
    more than it otherwise. *)
Theorem detailed_timing_set_monitor_range_mode_fields
    (dt : list Z) (mode : drmModeModeInfo) :
  detailed_timing_wf dt ->
  mode_wf mode ->
  htotal mode <> 0 ->
  exists dt',
    detailed_timing_set_monitor_range_mode dt mode = Some dt' /\
    range_member dt' MonitorRange.min_vfreq = (vrefresh mode - 1) mod 256 /\
    range_member dt' MonitorRange.max_vfreq = (vrefresh mode + 1) mod 256 /\
    range_member dt' MonitorRange.min_hfreq_khz
    = (clock mode / htotal mode - 1) mod 256 /\
    range_member dt' MonitorRange.max_hfreq_khz
    = (clock mode / htotal mode + 1) mod 256 /\
    range_member dt' MonitorRange.pixel_clock_mhz
    = (clock mode / 10000 + 1) mod 256 /\
    clock mode / 10000 + 1
    = (if clock mode mod 10000 =? 0
       then ceil_div (clock mode) 10000 + 1
       else ceil_div (clock mode) 10000).
Proof.
  intros Hwf Hmode Hht.
  destruct (detailed_timing_set_monitor_range_mode_some dt mode Hwf Hht)
    as (dt' & Hrun & _ & _ & H1 & H2 & H3 & H4 & H5).
  exists dt'. rewrite u8_u32 in H1, H2, H3, H4, H5.
  repeat (split; [assumption|]).
  unfold ceil_div.
  pose proof (Z.div_mod (clock mode) 10000) as Hdm.
  pose proof (Z.mod_pos_bound (clock mode) 10000) as Hmb.
  destruct (clock mode mod 10000 =? 0) eqn:Hrem.
  - apply Z.eqb_eq in Hrem.
    replace (clock mode + 10000 - 1)
      with (9999 + (clock mode / 10000) * 10000) by lia.
    rewrite Z.div_add by lia. reflexivity.
  - apply Z.eqb_neq in Hrem.
    replace (clock mode + 10000 - 1)
      with (clock mode mod 10000 - 1 + (clock mode / 10000 + 1) * 10000)
      by lia.
    rewrite Z.div_add by lia.
    rewrite (Z.div_small (clock mode mod 10000 - 1)) by lia. lia.
Qed.
End DescriptorClaims.

(** ** String descriptors *)

Section StringClaims.
Context {C : edid_constants}.

(** C7: for every string and every string type,
    [detailed_timing_set_string] copies the first min(length, 13)
    characters of the string to the 13-byte payload; when the string
    has fewer than 13 characters the payload byte that follows them is
    a newline, and when it has 13 or more the payload is exactly its
    first 13 characters, with no terminator. *)
Theorem detailed_timing_set_string_payload
    (dt : list Z) (type : Z) (str : list Z) :
  detailed_timing_wf dt ->
  is_string_type type = true ->
  exists dt',
    detailed_timing_set_string dt type str = Some dt' /\
    length dt' = 18%nat /\
    length (string_payload dt') = 13%nat /\
    take (min (strlen str) 13) (string_payload dt')
    = take (min (strlen str) 13) str /\
    ((strlen str < 13)%nat ->
     load (string_payload dt') (strlen str) = 10) /\
    ((13 <= strlen str)%nat -> string_payload dt' = take 13 str).
Proof.
  intros Hwf Hty.
  destruct (detailed_timing_set_string_some dt type str Hwf Hty)
    as (dt' & Hrun & Hlen & _ & Hpay).
  exists dt'. split; [exact Hrun|]. split; [exact Hlen|].
  rewrite Hpay. clear Hpay Hrun.
  pose proof (strlen_le_length str) as Hle.
  pose proof (length_strncpy_bytes str 13) as Hcpy.
  destruct (strlen str <? 13)%nat eqn:Hshort.
  - apply Nat.ltb_lt in Hshort.
    split; [rewrite length_insert; exact Hcpy|].
    split; [|split; [|lia]].
    + rewrite Nat.min_l by lia.
      rewrite take_insert_ge by lia.
      rewrite strncpy_bytes_short by exact Hshort.
      apply take_app_length'. rewrite length_take. lia.
    + intros _. unfold load. apply nth_lookup_Some.
      apply list_lookup_insert_eq. lia.
  - apply Nat.ltb_ge in Hshort.
    rewrite strncpy_bytes_long by exact Hshort.
    split; [rewrite length_take; lia|].
    split; [|split; [lia | reflexivity]].
    rewrite Nat.min_r by lia. apply take_take.
Qed.
End StringClaims.

(** ** Default initialisation *)

Section InitClaims.
Context {C : edid_constants}.

(** The record that [edid_init] builds, byte by byte. *)
Lemma edid_init_bytes edid tm_year :
  edid_init edid tm_year
  = Some
      ([0x00; 0xff; 0xff; 0xff; 0xff; 0xff; 0xff; 0x00;
        0x24; 0xf4; 0; 0; 0; 0; 0; 0; 0; u8 (tm_year - 90);
        1; 3; 0x80; 52; 30; 120; 0x02; 0; 0; 0; 0; 0; 0; 0; 0; 0; 0;
        0x21; 0x08; 0;
        u8 (1920 ÷ 8 - 31); u8 (Z.lor (Z.shiftl STD_TIMING_16_9 6) (60 - 60));
        u8 (1280 ÷ 8 - 31); u8 (Z.lor (Z.shiftl STD_TIMING_16_9 6) (60 - 60));
        u8 (1024 ÷ 8 - 31); u8 (Z.lor (Z.shiftl STD_TIMING_4_3 6) (60 - 60));
        u8 (800 ÷ 8 - 31); u8 (Z.lor (Z.shiftl STD_TIMING_4_3 6) (60 - 60));
        u8 (640 ÷ 8 - 31); u8 (Z.lor (Z.shiftl STD_TIMING_4_3 6) (60 - 60));
        1; 1; 1; 1; 1; 1]
       ++ replicate 74 0).
Proof. reflexivity. Qed.
Lemma edid_init_slot_encodes hsize aspect b1 :
  valid_std_timing hsize 60 aspect ->
  u8 (hsize ÷ 8 - 31) <> 1 ->
  b1 = u8 (Z.lor (Z.shiftl aspect 6) (60 - 60)) ->
  std_timing_encodes [u8 (hsize ÷ 8 - 31); b1] hsize 60 aspect.
Proof.
  intros Hvalid Hused ->. split.
  - unfold std_timing_sentinel. intros Heq. apply Hused.
    injection Heq as H0 _. exact H0.
  - apply (std_timing_bytes_unpack hsize 60 aspect Hvalid).
Qed.

(** C8: [edid_init] returns a 128-byte record that starts with the
    header 00 FF FF FF FF FF FF 00, whose standard-timing slots 0 to 4
    are in use and unpack to 1920, 1280 (both 16:9), 1024, 800 and 640
    pixels (all 4:3) at 60 Hz, and whose slots 5 to 7 hold the fill of
    an unused slot, two 0x01 bytes.  The aspect enumerators are 2-bit
    codes. *)
Theorem edid_init_defaults (edid : list Z) (tm_year : Z) :
  0 <= STD_TIMING_16_9 < 4 ->
  0 <= STD_TIMING_4_3 < 4 ->
  exists edid',
    edid_init edid tm_year = Some edid' /\
    length edid' = 128%nat /\
    sub edid' Edid.header 8
    = [0x00; 0xFF; 0xFF; 0xFF; 0xFF; 0xFF; 0xFF; 0x00] /\
    std_timing_encodes (std_slot edid' 0) 1920 60 STD_TIMING_16_9 /\
    std_timing_encodes (std_slot edid' 1) 1280 60 STD_TIMING_16_9 /\
    std_timing_encodes (std_slot edid' 2) 1024 60 STD_TIMING_4_3 /\
    std_timing_encodes (std_slot edid' 3) 800 60 STD_TIMING_4_3 /\
    std_timing_encodes (std_slot edid' 4) 640 60 STD_TIMING_4_3 /\
    std_slot edid' 5 = std_timing_sentinel /\
    std_slot edid' 6 = std_timing_sentinel /\
    std_slot edid' 7 = std_timing_sentinel.
Proof.
  intros H169 H43.
  eexists. split; [apply edid_init_bytes|].
  split; [reflexivity|]. split; [reflexivity|].
  assert (Hvalid : forall hsize aspect,
             hsize mod 8 = 0 -> 256 <= hsize <= 2288 -> 0 <= aspect < 4 ->
             valid_std_timing hsize 60 aspect).
  { intros hsize aspect Hm Hh Ha. unfold valid_std_timing.
    repeat split; (assumption || lia). }
  assert (Hslot : forall hsize aspect,
             hsize mod 8 = 0 -> 256 <= hsize <= 2288 -> 0 <= aspect < 4 ->
             u8 (hsize ÷ 8 - 31) <> 1 ->
             std_timing_encodes
               [u8 (hsize ÷ 8 - 31);
                u8 (Z.lor (Z.shiftl aspect 6) (60 - 60))]
               hsize 60 aspect).
  { intros hsize aspect Hm Hh Ha Hused.
    apply edid_init_slot_encodes; [apply Hvalid | |]; easy. }
  split; [apply (Hslot 1920 STD_TIMING_16_9); easy|].
  split; [apply (Hslot 1280 STD_TIMING_16_9); easy|].
  split; [apply (Hslot 1024 STD_TIMING_4_3); easy|].
  split; [apply (Hslot 800 STD_TIMING_4_3); easy|].
  split; [apply (Hslot 640 STD_TIMING_4_3); easy|].
  repeat split.
Qed.
End InitClaims.

(** ** The claims on concrete inputs *)

Ltac check_bytes := apply bytes_wfb_ok; vm_compute; reflexivity.
Ltac check_mode := unfold mode_wf, is_u32, is_u16; cbn; lia.

(** The checksum of the 1280x720 record is 0x29. *)
Lemma edid_update_checksum_sum_zero_witness :
  load (edid_update_checksum edid_720p) 127 = 0x29 /\
  byte_sum (edid_update_checksum edid_720p) mod 256 = 0.
Proof.
  apply (edid_update_checksum_sum_zero edid_720p). check_bytes.
Defined.

Lemma edid_update_checksum_idempotent_witness :
  load (edid_update_checksum (edid_update_checksum edid_720p)) Edid.checksum
  = load (edid_update_checksum edid_720p) Edid.checksum /\
  edid_update_checksum (edid_update_checksum edid_720p)
  = edid_update_checksum edid_720p.
Proof.
  apply (edid_update_checksum_idempotent edid_720p). check_bytes.
Defined.

(** The year byte, at offset 17, survives the checksum update. *)
Lemma edid_update_checksum_frame_witness :
  length (edid_update_checksum edid_720p) = length edid_720p /\
  load (edid_update_checksum edid_720p) 17 = load edid_720p 17.
Proof.
  apply (edid_update_checksum_frame edid_720p 17);
    [check_bytes | lia].
Defined.

(** 1920 pixels, 60 Hz, aspect code 3. *)
Lemma std_timing_set_roundtrip_witness :
  exists st',
    std_timing_set [0; 0] 1920 60 3 = Some st' /\
    (load st' 0 + 31) * 8 = 1920 /\
    Z.shiftr (load st' 1) 6 = 3 /\
    Z.land (load st' 1) 0x3F + 60 = 60.
Proof.
  apply (std_timing_set_roundtrip [0; 0] 1920 60 3).
  - check_bytes.
  - unfold valid_std_timing. repeat split; lia.
Defined.

Lemma std_timing_sentinel_only_collision_witness :
  std_timing_unset [0; 0] = [0x01; 0x01] /\
  (std_timing_set [0; 0] 1920 60 3 = Some (std_timing_unset [0; 0])
   <-> 1920 = 256 /\ 60 = 61 /\ 3 = 0).
Proof.
  apply (std_timing_sentinel_only_collision [0; 0] 1920 60 3).
  - check_bytes.
  - unfold valid_std_timing. repeat split; lia.
Defined.

(** C5, as stated, fails: for 1280x720 at 74.176 MHz the field holds
    7417, and 7418 is nearer to 7417.6. *)
Lemma detailed_timing_set_mode_rounds_down :
  mode_wf mode_720p_5994 /\
  set_mode_accepts mode_720p_5994 520 300 = true /\
  exists dt',
    detailed_timing_set_mode (C := edid_1_3) zero_descriptor
                             mode_720p_5994 520 300 = Some dt' /\
    pixel_clock_value dt' = 7417 /\
    ~ nearest_tenth (clock mode_720p_5994) (pixel_clock_value dt').
Proof.
  split; [check_mode|].
  split; [reflexivity|].
  eexists. split; [reflexivity|]. split; [reflexivity|].
  intros Hnear. specialize (Hnear 7418).
  vm_compute in Hnear. apply Hnear. reflexivity.
Qed.

(** C4, as stated, fails: for a mode with a 655.36 MHz clock that the
    assertions accept, both pixel-clock bytes are zero. *)
Lemma detailed_timing_set_mode_zero_tag :
  mode_wf mode_2160p_fast /\
  set_mode_accepts mode_2160p_fast 520 300 = true /\
  exists dt',
    detailed_timing_set_mode (C := edid_1_3) zero_descriptor
                             mode_2160p_fast 520 300 = Some dt' /\
    load dt' 0 = 0 /\ load dt' 1 = 0.
Proof.
  split; [check_mode|].
  split; [reflexivity|].
  eexists. split; [reflexivity|]. split; reflexivity.
Qed.

(** C6, as stated, fails: for 800x600 at 40 MHz the pixel-clock member
    of the range is 5, and the ceiling of 40000 / 10000 is 4. *)
Lemma monitor_range_pixel_clock_above_ceiling :
  mode_wf mode_800x600 /\
  htotal mode_800x600 <> 0 /\
  exists dt',
    detailed_timing_set_monitor_range_mode (C := edid_1_3) zero_descriptor
                                           mode_800x600 = Some dt' /\
    range_member dt' MonitorRange.pixel_clock_mhz = 5 /\
    ceil_div (clock mode_800x600) 10000 = 4.
Proof.
  split; [check_mode|].
  split; [discriminate|].
  eexists. split; [reflexivity|]. split; reflexivity.
Qed.

Lemma detailed_timing_set_mode_pixel_clock_witness :
  exists dt',
    detailed_timing_set_mode (C := edid_1_3) zero_descriptor
                             mode_720p 520 300 = Some dt' /\
    pixel_clock_value dt' = 7425 mod 2 ^ 16 /\
    (74250 < 655360 ->
     pixel_clock_value dt' = 7425 /\
     10 * pixel_clock_value dt' <= 74250 < 10 * pixel_clock_value dt' + 10).
Proof.
  apply (detailed_timing_set_mode_pixel_clock (C := edid_1_3)
           zero_descriptor mode_720p 520 300).
  - check_bytes.
  - check_mode.
  - reflexivity.
Defined.

(** The three encoders on the descriptors of the 1280x720 record: the
    tag bytes of the timing are not both zero, those of the range and
    of the name are. *)
Lemma detailed_timing_pixel_clock_tag_witness :
  (exists dt',
     detailed_timing_set_mode (C := edid_1_3) zero_descriptor
                              mode_720p 520 300 = Some dt' /\
     (load dt' 0 <> 0 \/ load dt' 1 <> 0)) /\
  (exists dt',
     detailed_timing_set_monitor_range_mode (C := edid_1_3) zero_descriptor
                                            mode_720p = Some dt' /\
     load dt' 0 = 0 /\ load dt' 1 = 0) /\
  (exists dt',
     detailed_timing_set_string (C := edid_1_3) zero_descriptor 0xfc
                                (chars "IGT") = Some dt' /\
     load dt' 0 = 0 /\ load dt' 1 = 0).
Proof.
  assert (Hdt : detailed_timing_wf zero_descriptor) by check_bytes.
  assert (Hm : mode_wf mode_720p) by check_mode.
  destruct (detailed_timing_pixel_clock_tag (C := edid_1_3)
              zero_descriptor mode_720p 520 300 0xfc (chars "IGT") Hdt Hm)
    as (Hmode & Hrange & Hstring).
  split; [|split].
  - destruct (Hmode eq_refl) as (dt' & Hrun & _ & Hused).
    exists dt'. split; [exact Hrun|]. apply Hused. cbn. lia.
  - apply Hrange. discriminate.
  - apply Hstring. reflexivity.
Defined.

Lemma detailed_timing_set_monitor_range_mode_fields_witness :
  exists dt',
    detailed_timing_set_monitor_range_mode (C := edid_1_3) zero_descriptor
                                           mode_720p = Some dt' /\
    range_member dt' MonitorRange.min_vfreq = 59 /\
    range_member dt' MonitorRange.max_vfreq = 61 /\
    range_member dt' MonitorRange.min_hfreq_khz = 44 /\
    range_member dt' MonitorRange.max_hfreq_khz = 46 /\
    range_member dt' MonitorRange.pixel_clock_mhz = 8 /\
    8 = ceil_div 74250 10000.
Proof.
  apply (detailed_timing_set_monitor_range_mode_fields (C := edid_1_3)
           zero_descriptor mode_720p).
  - check_bytes.
  - check_mode.
  - discriminate.
Defined.

(** A 5-character name and a 20-character name. *)
Lemma detailed_timing_set_string_payload_witness :
  (exists dt',
     detailed_timing_set_string (C := edid_1_3) zero_descriptor 0xfc
                                (chars "HELLO") = Some dt' /\
     string_payload dt' = chars "HELLO" ++ [10; 0; 0; 0; 0; 0; 0; 0] /\
     load (string_payload dt') 5 = 10) /\
  (exists dt',
     detailed_timing_set_string (C := edid_1_3) zero_descriptor 0xfc
                                (chars "ABCDEFGHIJKLMNOPQRST") = Some dt' /\
     length dt' = 18%nat /\
     string_payload dt' = chars "ABCDEFGHIJKLM").
Proof.
  assert (Hdt : detailed_timing_wf zero_descriptor) by check_bytes.
  split.
  - destruct (detailed_timing_set_string_payload (C := edid_1_3)
                zero_descriptor 0xfc (chars "HELLO") Hdt eq_refl)
      as (dt' & Hrun & _ & _ & _ & Hnl & _).
    exists dt'. split; [exact Hrun|].
    split; [|apply Hnl; vm_compute; lia].
    vm_compute in Hrun. injection Hrun as <-. reflexivity.
  - destruct (detailed_timing_set_string_payload (C := edid_1_3)
                zero_descriptor 0xfc (chars "ABCDEFGHIJKLMNOPQRST")
                Hdt eq_refl)
      as (dt' & Hrun & Hlen & _ & _ & _ & Hcut).
    exists dt'. split; [exact Hrun|]. split; [exact Hlen|].
    apply Hcut. vm_compute. lia.
Defined.

Lemma edid_init_defaults_witness :
  exists edid',
    edid_init (C := edid_1_3) zero_edid 119 = Some edid' /\
    length edid' = 128%nat /\
    sub edid' Edid.header 8
    = [0x00; 0xFF; 0xFF; 0xFF; 0xFF; 0xFF; 0xFF; 0x00] /\
    std_timing_encodes (std_slot edid' 0) 1920 60 3 /\
    std_timing_encodes (std_slot edid' 1) 1280 60 3 /\
    std_timing_encodes (std_slot edid' 2) 1024 60 1 /\
    std_timing_encodes (std_slot edid' 3) 800 60 1 /\
    std_timing_encodes (std_slot edid' 4) 640 60 1 /\
    std_slot edid' 5 = std_timing_sentinel /\
    std_slot edid' 6 = std_timing_sentinel /\
    std_slot edid' 7 = std_timing_sentinel.
Proof.
  apply (edid_init_defaults (C := edid_1_3) zero_edid 119); cbn; lia.
Defined.

(** * Further properties of the encoder *)

(** ** More on bit fields *)

Lemma u8_land x : u8 x = Z.land x 255.
Proof.
  unfold u8. change 255 with (2 ^ 8 - 1).
  rewrite land_low_bits by lia. reflexivity.
Qed.

Lemma u8_lor x y : u8 (Z.lor x y) = Z.lor (u8 x) (u8 y).
Proof. rewrite !u8_land. apply Z.land_lor_distr_l. Qed.

Lemma lor_mul_small u v k :
  0 <= k -> 0 <= v < 2 ^ k -> Z.lor (u * 2 ^ k) v = u * 2 ^ k + v.
Proof.
  intros Hk Hv. rewrite <- (lor_shiftl_small u v k Hk Hv).
  rewrite Z.shiftl_mul_pow2 by exact Hk. reflexivity.
Qed.

Lemma lor_2bit a q : 0 <= a < 4 -> 0 <= q < 4 -> 0 <= Z.lor a q < 4.
Proof.
  intros Ha Hq.
  assert (Hac : a = 0 \/ a = 1 \/ a = 2 \/ a = 3) by lia.
  assert (Hqc : q = 0 \/ q = 1 \/ q = 2 \/ q = 3) by lia.
  destruct Hac as [-> | [-> | [-> | ->]]];
    destruct Hqc as [-> | [-> | [-> | ->]]];
    (split; [apply Z.leb_le | apply Z.ltb_lt]; reflexivity).
Qed.

Lemma bits_range x lo n : 0 <= n -> 0 <= bits x lo n < 2 ^ n.
Proof.
  intros Hn. unfold bits. apply Z.mod_pos_bound.
  apply Z.pow_pos_nonneg; lia.
Qed.

(** Masking [x] with [n] ones shifted left by [lo] keeps the field in
    place. *)
Lemma land_field x lo n :
  0 <= lo -> 0 <= n ->
  Z.land x (Z.shiftl (Z.ones n) lo) = bits x lo n * 2 ^ lo.
Proof.
  intros Hlo Hn. unfold bits.
  rewrite <- Z.land_ones by exact Hn.
  rewrite <- Z.shiftr_div_pow2 by exact Hlo.
  rewrite <- Z.shiftl_mul_pow2 by exact Hlo.
  apply Z.bits_inj'. intros k Hk.
  rewrite Z.land_spec.
  destruct (Z.lt_ge_cases k lo) as [Hlt | Hge].
  - rewrite !Z.shiftl_spec_low by exact Hlt. apply andb_false_r.
  - rewrite !Z.shiftl_spec by exact Hk.
    rewrite Z.land_spec, Z.shiftr_spec by lia.
    replace (k - lo + lo) with k by lia. reflexivity.
Qed.

(** ** More on standard timings *)

(** X1: [std_timing_set] aborts exactly when the horizontal size is
    below 256 or above 2288; the refresh rate and the aspect code are
    never checked. *)
Theorem std_timing_set_hsize_guard (st : list Z) (hsize vfreq aspect : Z) :
  std_timing_set st hsize vfreq aspect = None
  <-> hsize < 256 \/ 2288 < hsize.
Proof.
  unfold std_timing_set, assert.
  destruct (256 <=? hsize) eqn:Hlo; destruct (hsize <=? 2288) eqn:Hhi;
    cbn; rewrite ?Z.leb_le, ?Z.leb_gt in Hlo, Hhi;
    (split; intros H; first [discriminate H | reflexivity | lia]).
Qed.

(** X2: a horizontal size in [256, 2288] that is not a multiple of 8 is
    accepted and rounded down to one: the slot unpacks to
    [hsize - hsize mod 8]. *)
Theorem std_timing_set_hsize_rounds_down
    (st : list Z) (hsize vfreq aspect : Z) :
  std_timing_wf st ->
  256 <= hsize <= 2288 ->
  exists st',
    std_timing_set st hsize vfreq aspect = Some st' /\
    std_timing_hsize st' = hsize - hsize mod 8.
Proof.
  intros Hwf Hh.
  eexists. split; [apply (std_timing_set_bytes st); assumption|].
  unfold std_timing_hsize, load. cbn [nth StdTiming.hsize].
  rewrite std_timing_hsize_byte by exact Hh.
  pose proof (Z.div_mod hsize 8) as Hdm. lia.
Qed.

Lemma std_timing_set_hsize_rounds_down_witness :
  exists st',
    std_timing_set [0; 0] 1366 60 3 = Some st' /\
    std_timing_hsize st' = 1366 - 1366 mod 8.
Proof.
  apply (std_timing_set_hsize_rounds_down [0; 0] 1366 60 3);
    [check_bytes | lia].
Defined.

(** The second byte of a standard timing, for any refresh rate. *)
Lemma std_timing_vfreq_aspect_byte_any vfreq aspect :
  0 <= aspect < 4 ->
  let v := (vfreq - 60) mod 256 in
  u8 (Z.lor (Z.shiftl aspect 6) (vfreq - 60))
  = Z.lor aspect (v / 64) * 64 + v mod 64.
Proof.
  intros Ha v. rewrite u8_lor. fold (u8 (vfreq - 60)). unfold u8 at 2.
  fold v.
  assert (Hv : 0 <= v < 256) by (apply Z.mod_pos_bound; lia).
  assert (Hq : 0 <= v / 64 < 4) by (Z.to_euclidean_division_equations; lia).
  assert (Hr : 0 <= v mod 64 < 64) by (apply Z.mod_pos_bound; lia).
  rewrite Z.shiftl_mul_pow2 by lia. change (2 ^ 6) with 64.
  rewrite u8_id by (unfold is_u8; lia).
  replace v with (v / 64 * 2 ^ 6 + v mod 64) at 1
    by (change (2 ^ 6) with 64; Z.to_euclidean_division_equations; lia).
  rewrite <- (lor_mul_small (v / 64) (v mod 64) 6)
    by (change (2 ^ 6) with 64; lia).
  rewrite Z.lor_assoc.
  change 64 with (2 ^ 6) at 1.
  rewrite <- !Z.shiftl_mul_pow2 by lia. rewrite <- Z.shiftl_lor.
  rewrite Z.shiftl_mul_pow2 by lia.
  rewrite lor_mul_small by (change (2 ^ 6) with 64; lia).
  reflexivity.
Qed.

(** X3: [std_timing_set] does not check the refresh rate.  With
    [v = (vfreq - 60) mod 256], the slot unpacks to the rate
    [60 + v mod 64], and the two high bits of [v] are or-ed into the
    aspect code: a rate outside 60..123 Hz changes both. *)
Theorem std_timing_set_vfreq_unchecked
    (st : list Z) (hsize vfreq aspect : Z) :
  std_timing_wf st ->
  256 <= hsize <= 2288 ->
  0 <= aspect < 4 ->
  exists st',
    std_timing_set st hsize vfreq aspect = Some st' /\
    std_timing_vfreq st' = 60 + ((vfreq - 60) mod 256) mod 64 /\
    std_timing_aspect st' = Z.lor aspect (((vfreq - 60) mod 256) / 64).
Proof.
  intros Hwf Hh Ha.
  eexists. split; [apply (std_timing_set_bytes st); assumption|].
  unfold std_timing_vfreq, std_timing_aspect, load.
  cbn [nth StdTiming.vfreq_aspect].
  rewrite std_timing_vfreq_aspect_byte_any by exact Ha.
  set (v := (vfreq - 60) mod 256).
  assert (Hv : 0 <= v < 256) by (apply Z.mod_pos_bound; lia).
  assert (Hq : 0 <= v / 64 < 4) by (Z.to_euclidean_division_equations; lia).
  pose proof (lor_2bit aspect (v / 64) Ha Hq) as Hlor.
  pose proof (Z.mod_pos_bound v 64) as Hr.
  set (a := Z.lor aspect (v / 64)) in *.
  set (r := v mod 64) in *.
  split.
  - change 0x3F with (2 ^ 6 - 1). rewrite land_low_bits by lia.
    change (2 ^ 6) with 64. Z.to_euclidean_division_equations. lia.
  - rewrite Z.shiftr_div_pow2 by lia. change (2 ^ 6) with 64.
    Z.to_euclidean_division_equations. lia.
Qed.

(** 50 Hz with aspect code 0 reads back as 114 Hz with aspect code 3;
    144 would read back as 80 Hz with aspect code 1. *)
Lemma std_timing_set_vfreq_unchecked_witness :
  exists st',
    std_timing_set [0; 0] 1920 50 0 = Some st' /\
    std_timing_vfreq st' = 114 /\
    std_timing_aspect st' = 3.
Proof.
  apply (std_timing_set_vfreq_unchecked [0; 0] 1920 50 0);
    [check_bytes | lia | lia].
Defined.

(** ** The manufacturer id *)

Lemma edid_set_mfg_bytes edid m0 m1 m2 :
  edid_wf edid ->
  0 <= m0 - 64 < 32 -> 0 <= m1 - 64 < 32 -> 0 <= m2 - 64 < 32 ->
  let edid' := edid_set_mfg edid [m0; m1; m2] in
  load edid' 8 = (m0 - 64) * 4 + (m1 - 64) / 8 /\
  load edid' 9 = (m1 - 64) mod 8 * 32 + (m2 - 64).
Proof.
  intros [Hlen _] H0 H1 H2 edid'. subst edid'.
  change Edid.sizeof with 128%nat in Hlen.
  unfold edid_set_mfg. cbn [nth Edid.mfg_id Nat.add].
  rewrite load_store_ne by lia.
  rewrite !load_store_eq by (rewrite ?length_store; lia).
  assert (Hq : 0 <= (m1 - 64) / 8 < 4)
    by (Z.to_euclidean_division_equations; lia).
  split.
  - rewrite Z.shiftr_div_pow2 by lia. change (2 ^ 3) with 8.
    rewrite lor_shiftl_small by (change (2 ^ 2) with 4; lia).
    change (2 ^ 2) with 4. apply u8_id. unfold is_u8. lia.
  - rewrite lor_shiftl_small by (change (2 ^ 5) with 32; lia).
    change (2 ^ 5) with 32. unfold u8.
    Z.to_euclidean_division_equations. lia.
Qed.

(** X4: for three characters whose distance from '@' fits 5 bits (the
    capital letters among them), [edid_set_mfg] packs them so that the
    three 5-bit fields of bytes 8 and 9 give them back; it writes no
    other byte of the record. *)
Theorem edid_set_mfg_roundtrip (edid : list Z) (m0 m1 m2 : Z) (off : nat) :
  edid_wf edid ->
  0 <= m0 - 64 < 32 -> 0 <= m1 - 64 < 32 -> 0 <= m2 - 64 < 32 ->
  off <> 8%nat -> off <> 9%nat ->
  let edid' := edid_set_mfg edid [m0; m1; m2] in
  mfg_letter0 edid' + 64 = m0 /\
  mfg_letter1 edid' + 64 = m1 /\
  mfg_letter2 edid' + 64 = m2 /\
  length edid' = length edid /\
  load edid' off = load edid off.
Proof.
  intros Hwf H0 H1 H2 Hoff8 Hoff9 edid'.
  destruct (edid_set_mfg_bytes edid m0 m1 m2 Hwf H0 H1 H2) as [Hb0 Hb1].
  unfold mfg_letter0, mfg_letter1, mfg_letter2.
  change (Edid.mfg_id + 1)%nat with 9%nat. change Edid.mfg_id with 8%nat.
  subst edid'. rewrite Hb0, Hb1.
  set (edid' := edid_set_mfg edid [m0; m1; m2]).
  set (c0 := m0 - 64) in *. set (c1 := m1 - 64) in *.
  set (c2 := m2 - 64) in *.
  assert (Hq : 0 <= c1 / 8 < 4) by (Z.to_euclidean_division_equations; lia).
  assert (Hr : 0 <= c1 mod 8 < 8) by (apply Z.mod_pos_bound; lia).
  split; [|split; [|split; [|split]]].
  - rewrite Z.shiftr_div_pow2 by lia. change 0x1F with (2 ^ 5 - 1).
    rewrite land_low_bits by lia. change (2 ^ 5) with 32.
    change (2 ^ 2) with 4. Z.to_euclidean_division_equations. lia.
  - change 0x3 with (2 ^ 2 - 1). rewrite land_low_bits by lia.
    rewrite Z.shiftr_div_pow2 by lia.
    change (2 ^ 2) with 4. change (2 ^ 5) with 32.
    assert (Hlow : (c0 * 4 + c1 / 8) mod 4 = c1 / 8)
      by (Z.to_euclidean_division_equations; lia).
    assert (Hhigh : (c1 mod 8 * 32 + c2) / 32 = c1 mod 8)
      by (Z.to_euclidean_division_equations; lia).
    rewrite Hlow, Hhigh.
    rewrite lor_shiftl_small by (change (2 ^ 3) with 8; lia).
    change (2 ^ 3) with 8. Z.to_euclidean_division_equations. lia.
  - change 0x1F with (2 ^ 5 - 1). rewrite land_low_bits by lia.
    change (2 ^ 5) with 32. Z.to_euclidean_division_equations. lia.
  - subst edid'. unfold edid_set_mfg. rewrite !length_store. reflexivity.
  - subst edid'. unfold edid_set_mfg. cbn [Edid.mfg_id Nat.add].
    rewrite !load_store_ne by lia. reflexivity.
Qed.

(** "IGT" on the 1280x720 record; byte 18, the version, is kept. *)
Lemma edid_set_mfg_roundtrip_witness :
  let edid' := edid_set_mfg edid_720p (chars "IGT") in
  mfg_letter0 edid' + 64 = 73 /\
  mfg_letter1 edid' + 64 = 71 /\
  mfg_letter2 edid' + 64 = 84 /\
  length edid' = length edid_720p /\
  load edid' 18 = load edid_720p 18.
Proof.
  apply (edid_set_mfg_roundtrip edid_720p 73 71 84 18);
    [check_bytes | lia | lia | lia | lia | lia].
Defined.

(** ** More on the checksum *)

Lemma store_last buf v n :
  length buf = S n -> store buf n v = take n buf ++ [u8 v].
Proof.
  intros Hlen. unfold store.
  rewrite <- (take_drop n buf) at 1.
  rewrite insert_app_r_alt by (rewrite length_take; lia).
  rewrite length_take. replace (n - n `min` length buf)%nat with 0%nat by lia.
  destruct (drop n buf) as [|c rest] eqn:Hd.
  - apply (f_equal length) in Hd. rewrite length_drop in Hd.
    cbn in Hd. lia.
  - assert (rest = []) as ->.
    { apply (f_equal length) in Hd. rewrite length_drop in Hd.
      cbn in Hd. destruct rest; [reflexivity | cbn in Hd; lia]. }
    reflexivity.
Qed.

Lemma byte_sum_insert (buf : list Z) (i : nat) (x : Z) :
  (i < length buf)%nat ->
  byte_sum (<[i := x]> buf) = byte_sum buf - nth i buf 0 + x.
Proof.
  revert i. induction buf as [|b buf IH]; intros i Hi; [cbn in Hi; lia|].
  destruct i as [|i].
  - cbn. unfold byte_sum. lia.
  - cbn in Hi. cbn [nth].
    change (<[S i := x]> (b :: buf)) with (b :: <[i := x]> buf).
    unfold byte_sum in *. cbn [foldr]. rewrite IH by lia. lia.
Qed.

Lemma edid_update_checksum_image edid :
  edid_wf edid ->
  edid_update_checksum edid
  = take 127 edid ++ [(256 - byte_sum (take 127 edid) mod 256) mod 256].
Proof.
  intros [Hlen _]. unfold edid_update_checksum.
  change (Edid.sizeof - 1)%nat with 127%nat. change Edid.checksum with 127%nat.
  rewrite store_last by exact Hlen.
  rewrite checksum_loop_spec. reflexivity.
Qed.

(** X5: the records that [edid_update_checksum] leaves as they are are
    exactly those whose 128 bytes sum to 0 modulo 256. *)
Theorem edid_update_checksum_fixpoint (edid : list Z) :
  edid_wf edid ->
  (edid_update_checksum edid = edid <-> byte_sum edid mod 256 = 0).
Proof.
  intros Hwf.
  rewrite (edid_update_checksum_image edid Hwf).
  pose proof (edid_split edid Hwf) as Hsplit.
  assert (Hc : is_u8 (load edid Edid.checksum)).
  { destruct Hwf as [Hlen Hall]. unfold load.
    destruct (nth_lookup_or_length edid Edid.checksum 0) as [Hnth | Hge].
    - rewrite Forall_lookup in Hall. apply (Hall _ _ Hnth).
    - unfold Edid.checksum in Hge.
      change Edid.sizeof with 128%nat in Hlen. lia. }
  set (c := load edid Edid.checksum) in *.
  set (S := byte_sum (take 127 edid)).
  assert (Hsum : byte_sum edid = S + c).
  { rewrite Hsplit at 1. rewrite byte_sum_app. unfold byte_sum at 2.
    cbn [foldr]. fold S. lia. }
  rewrite Hsum. unfold is_u8 in Hc.
  split.
  - intros Heq.
    assert (Heq' : take 127 edid ++ [(256 - S mod 256) mod 256]
                   = take 127 edid ++ [c])
      by (rewrite <- Hsplit; exact Heq).
    apply app_inv_head in Heq'. injection Heq' as Heq'.
    revert Heq'. Z.to_euclidean_division_equations. lia.
  - intros Hzero.
    transitivity (take 127 edid ++ [c]); [|symmetry; exact Hsplit].
    f_equal. f_equal.
    revert Hzero. Z.to_euclidean_division_equations. lia.
Qed.

Lemma edid_update_checksum_fixpoint_witness :
  edid_update_checksum (edid_update_checksum edid_720p)
  = edid_update_checksum edid_720p
  <-> byte_sum (edid_update_checksum edid_720p) mod 256 = 0.
Proof.
  apply (edid_update_checksum_fixpoint (edid_update_checksum edid_720p)).
  check_bytes.
Defined.

(** X6: the checksum detects every change of one byte: after a store to
    an offset below 127, [edid_update_checksum] computes the checksum it
    computed before exactly when the store did not change the byte. *)
Theorem edid_update_checksum_detects_change
    (edid : list Z) (off : nat) (v : Z) :
  edid_wf edid ->
  (off < 127)%nat ->
  (load (edid_update_checksum (store edid off v)) Edid.checksum
   = load (edid_update_checksum edid) Edid.checksum
   <-> u8 v = load edid off).
Proof.
  intros Hwf Hoff.
  pose proof (store_wf _ _ off v Hwf) as Hwf'.
  rewrite (edid_update_checksum_byte _ Hwf').
  rewrite (edid_update_checksum_byte _ Hwf).
  assert (Hold : is_u8 (load edid off)).
  { destruct Hwf as [Hlen Hall]. unfold load.
    destruct (nth_lookup_or_length edid off 0) as [Hnth | Hge].
    - rewrite Forall_lookup in Hall. apply (Hall _ _ Hnth).
    - change Edid.sizeof with 128%nat in Hlen. lia. }
  assert (Hsum : byte_sum (take 127 (store edid off v))
                 = byte_sum (take 127 edid) - load edid off + u8 v).
  { destruct Hwf as [Hlen _]. change Edid.sizeof with 128%nat in Hlen.
    unfold store. rewrite take_insert_lt by exact Hoff.
    rewrite byte_sum_insert by (rewrite length_take; lia).
    unfold load. rewrite !nth_lookup.
    rewrite lookup_take_lt by exact Hoff. reflexivity. }
  rewrite Hsum.
  pose proof (u8_range v) as Hnew. unfold is_u8 in Hold, Hnew.
  set (S := byte_sum (take 127 edid)). set (b := load edid off) in *.
  set (w := u8 v) in *.
  split.
  - Z.to_euclidean_division_equations. lia.
  - intros ->. f_equal. f_equal. f_equal. lia.
Qed.

(** The year byte of the 1280x720 record set to 30. *)
Lemma edid_update_checksum_detects_change_witness :
  load (edid_update_checksum (store edid_720p 17 30)) Edid.checksum
  = load (edid_update_checksum edid_720p) Edid.checksum
  <-> u8 30 = load edid_720p 17.
Proof.
  apply (edid_update_checksum_detects_change edid_720p 17 30);
    [check_bytes | lia].
Defined.

(** ** The pixel timing *)

(** A descriptor as its 18 bytes. *)
Ltac explode18 dt Hlen :=
  do 18 (destruct dt as [|? dt]; [discriminate Hlen|]);
  destruct dt as [|? dt]; [|discriminate Hlen].

Lemma low_byte x : u8 (Z.land x 0x0FF) = x mod 256.
Proof.
  change 0x0FF with (2 ^ 8 - 1). rewrite land_low_bits by lia.
  unfold u8. change (2 ^ 8) with 256. apply Z.mod_mod. lia.
Qed.

(** The byte that shares the high nibbles of two 12-bit values. *)
Lemma nibbles_byte x y :
  u8 (Z.lor (Z.shiftr (Z.land x 0xF00) 4) (Z.shiftr (Z.land y 0xF00) 8))
  = bits x 8 4 * 16 + bits y 8 4.
Proof.
  change 0xF00 with (Z.shiftl (Z.ones 4) 8).
  rewrite !land_field by lia. rewrite !Z.shiftr_div_pow2 by lia.
  pose proof (bits_range x 8 4) as Hx. pose proof (bits_range y 8 4) as Hy.
  change (2 ^ 4) with 16 in *. change (2 ^ 8) with 256.
  replace (bits x 8 4 * 256 / 16) with (bits x 8 4 * 2 ^ 4)
    by (change (2 ^ 4) with 16; Z.to_euclidean_division_equations; lia).
  replace (bits y 8 4 * 256 / 256) with (bits y 8 4)
    by (Z.to_euclidean_division_equations; lia).
  rewrite lor_mul_small by (change (2 ^ 4) with 16; lia).
  change (2 ^ 4) with 16. apply u8_id. unfold is_u8. lia.
Qed.

Lemma join12 x lo hi :
  lo = x mod 256 -> hi = bits x 8 4 -> lo + 256 * hi = x mod 4096.
Proof.
  intros -> ->. unfold bits. change (2 ^ 8) with 256. change (2 ^ 4) with 16.
  Z.to_euclidean_division_equations. lia.
Qed.

Lemma nibbles_unpack x y :
  let hi := bits x 8 4 * 16 + bits y 8 4 in
  Z.shiftr hi 4 = bits x 8 4 /\ Z.land hi 0xF = bits y 8 4.
Proof.
  intros hi. subst hi.
  pose proof (bits_range x 8 4) as Hx. pose proof (bits_range y 8 4) as Hy.
  change (2 ^ 4) with 16 in *.
  rewrite Z.shiftr_div_pow2 by lia.
  change 0xF with (2 ^ 4 - 1). rewrite land_low_bits by lia.
  change (2 ^ 4) with 16.
  split; Z.to_euclidean_division_equations; lia.
Qed.

(** The byte of the low nibbles of the two vertical sync fields. *)
Lemma vsync_lo_byte x y :
  u8 (Z.lor (Z.shiftl (Z.land x 0xF) 4) (Z.land y 0xF))
  = x mod 16 * 16 + y mod 16.
Proof.
  change 0xF with (2 ^ 4 - 1). rewrite !land_low_bits by lia.
  pose proof (Z.mod_pos_bound x 16) as Hx.
  pose proof (Z.mod_pos_bound y 16) as Hy.
  rewrite lor_shiftl_small by (change (2 ^ 4) with 16; lia).
  change (2 ^ 4) with 16. apply u8_id. unfold is_u8. lia.
Qed.

(** The byte of the high bits of the four sync fields. *)
Lemma sync_hi_byte ho hp vo vp :
  u8 (Z.lor
        (Z.lor
           (Z.lor (Z.shiftr (Z.land ho 0x300) 2)
                  (Z.shiftr (Z.land hp 0x300) 4))
           (Z.shiftr (Z.land vo 0x30) 2))
        (Z.shiftr (Z.land vp 0x30) 4))
  = bits ho 8 2 * 64 + bits hp 8 2 * 16 + bits vo 4 2 * 4 + bits vp 4 2.
Proof.
  change 0x300 with (Z.shiftl (Z.ones 2) 8).
  change 0x30 with (Z.shiftl (Z.ones 2) 4).
  rewrite !land_field by lia. rewrite !Z.shiftr_div_pow2 by lia.
  pose proof (bits_range ho 8 2) as Ha. pose proof (bits_range hp 8 2) as Hb.
  pose proof (bits_range vo 4 2) as Hc. pose proof (bits_range vp 4 2) as Hd.
  set (a := bits ho 8 2) in *. set (b := bits hp 8 2) in *.
  set (c := bits vo 4 2) in *. set (d := bits vp 4 2) in *.
  change (2 ^ 2) with 4 in *. change (2 ^ 8) with 256. change (2 ^ 4) with 16.
  replace (a * 256 / 4) with (a * 2 ^ 6)
    by (change (2 ^ 6) with 64; Z.to_euclidean_division_equations; lia).
  replace (b * 256 / 16) with (b * 16)
    by (Z.to_euclidean_division_equations; lia).
  replace (c * 16 / 4) with (c * 4)
    by (Z.to_euclidean_division_equations; lia).
  replace (d * 16 / 16) with d by (Z.to_euclidean_division_equations; lia).
  rewrite lor_mul_small by (change (2 ^ 6) with 64; lia).
  replace (a * 2 ^ 6 + b * 16) with ((a * 4 + b) * 2 ^ 4)
    by (change (2 ^ 6) with 64; change (2 ^ 4) with 16; lia).
  rewrite lor_mul_small by (change (2 ^ 4) with 16; lia).
  replace ((a * 4 + b) * 2 ^ 4 + c * 4) with ((a * 16 + b * 4 + c) * 2 ^ 2)
    by (change (2 ^ 4) with 16; change (2 ^ 2) with 4; lia).
  rewrite lor_mul_small by (change (2 ^ 2) with 4; lia).
  change (2 ^ 2) with 4.
  rewrite u8_id by (unfold is_u8; lia). lia.
Qed.

Lemma sync_hi_unpack a b c d :
  0 <= a < 4 -> 0 <= b < 4 -> 0 <= c < 4 -> 0 <= d < 4 ->
  let hi := a * 64 + b * 16 + c * 4 + d in
  Z.shiftr hi 6 = a /\ Z.land (Z.shiftr hi 4) 0x3 = b /\
  Z.land (Z.shiftr hi 2) 0x3 = c /\ Z.land hi 0x3 = d.
Proof.
  intros Ha Hb Hc Hd hi. subst hi.
  rewrite !Z.shiftr_div_pow2 by lia.
  change 0x3 with (2 ^ 2 - 1). rewrite !land_low_bits by lia.
  change (2 ^ 2) with 4. change (2 ^ 4) with 16. change (2 ^ 6) with 64.
  repeat split; Z.to_euclidean_division_equations; lia.
Qed.

Section PixelTimingImage.
Context {C : edid_constants}.

(** The misc byte that [detailed_timing_set_mode] leaves. *)
Lemma misc_byte_cases (fl : Z) :
  (if Z.land fl DRM_MODE_FLAG_PVSYNC =? 0
   then if Z.land fl DRM_MODE_FLAG_PHSYNC =? 0
        then 0 else u8 EDID_PT_HSYNC_POSITIVE
   else if Z.land fl DRM_MODE_FLAG_PHSYNC =? 0
        then u8 EDID_PT_VSYNC_POSITIVE
        else u8 (Z.lor (u8 EDID_PT_HSYNC_POSITIVE) EDID_PT_VSYNC_POSITIVE))
  = u8 (Z.lor
          (if Z.land fl DRM_MODE_FLAG_PHSYNC =? 0
           then 0 else EDID_PT_HSYNC_POSITIVE)
          (if Z.land fl DRM_MODE_FLAG_PVSYNC =? 0
           then 0 else EDID_PT_VSYNC_POSITIVE)).
Proof.
  destruct (Z.land fl DRM_MODE_FLAG_PVSYNC =? 0);
    destruct (Z.land fl DRM_MODE_FLAG_PHSYNC =? 0).
  - reflexivity.
  - rewrite Z.lor_0_r. reflexivity.
  - reflexivity.
  - rewrite (u8_lor EDID_PT_HSYNC_POSITIVE), u8_lor, u8_idemp. reflexivity.
Qed.

(** The 18 bytes that [detailed_timing_set_mode] returns when its
    assertions hold: 16 computed from the arguments, and the two border
    bytes of the descriptor it was given. *)
Lemma detailed_timing_set_mode_image dt mode width_mm height_mm :
  length dt = 18%nat ->
  set_mode_accepts mode width_mm height_mm = true ->
  detailed_timing_set_mode dt mode width_mm height_mm
  = Some
      [u8 (Z.land (clock mode / 10) 0x00FF);
       u8 (Z.shiftr (Z.land (clock mode / 10) 0xFF00) 8);
       u8 (Z.land (hdisplay mode) 0x0FF);
       u8 (Z.land (htotal mode - hdisplay mode) 0x0FF);
       u8 (Z.lor (Z.shiftr (Z.land (hdisplay mode) 0xF00) 4)
                 (Z.shiftr (Z.land (htotal mode - hdisplay mode) 0xF00) 8));
       u8 (Z.land (vdisplay mode) 0x0FF);
       u8 (Z.land (vtotal mode - vdisplay mode) 0x0FF);
       u8 (Z.lor (Z.shiftr (Z.land (vdisplay mode) 0xF00) 4)
                 (Z.shiftr (Z.land (vtotal mode - vdisplay mode) 0xF00) 8));
       u8 (Z.land (hsync_start mode - hdisplay mode) 0x0FF);
       u8 (Z.land (hsync_end mode - hsync_start mode) 0x0FF);
       u8 (Z.lor (Z.shiftl (Z.land (vsync_start mode - vdisplay mode) 0xF) 4)
                 (Z.land (vsync_end mode - vsync_start mode) 0xF));
       u8 (Z.lor
             (Z.lor
                (Z.lor
                   (Z.shiftr
                      (Z.land (hsync_start mode - hdisplay mode) 0x300) 2)
                   (Z.shiftr
                      (Z.land (hsync_end mode - hsync_start mode) 0x300) 4))
                (Z.shiftr (Z.land (vsync_start mode - vdisplay mode) 0x30) 2))
             (Z.shiftr (Z.land (vsync_end mode - vsync_start mode) 0x30) 4));
       u8 (Z.land width_mm 0x0FF);
       u8 (Z.land height_mm 0x0FF);
       u8 (Z.lor (Z.shiftr (Z.land width_mm 0xF00) 4)
                 (Z.shiftr (Z.land height_mm 0xF00) 8));
       load dt 15;
       load dt 16;
       u8 (Z.lor
             (if Z.land (flags mode) DRM_MODE_FLAG_PHSYNC =? 0
              then 0 else EDID_PT_HSYNC_POSITIVE)
             (if Z.land (flags mode) DRM_MODE_FLAG_PVSYNC =? 0
              then 0 else EDID_PT_VSYNC_POSITIVE))].
Proof.
  intros Hlen Hacc.
  apply set_mode_accepts_spec in Hacc.
  destruct Hacc as ((H1 & H2) & (H3 & H4) & (H5 & H6 & H7 & H8) & H9 & H10).
  rewrite <- misc_byte_cases.
  unfold detailed_timing_set_mode. cbv zeta.
  rewrite H1, H2, H3, H4, H5, H6, H7, H8, H9, H10.
  rewrite !assert_true.
  explode18 dt Hlen.
  destruct (Z.land (flags mode) DRM_MODE_FLAG_PHSYNC =? 0);
    destruct (Z.land (flags mode) DRM_MODE_FLAG_PVSYNC =? 0);
    reflexivity.
Qed.
End PixelTimingImage.

Lemma join10 x lo hi :
  lo = x mod 256 -> hi = bits x 8 2 -> lo + 256 * hi = x mod 1024.
Proof.
  intros -> ->. unfold bits. change (2 ^ 8) with 256. change (2 ^ 2) with 4.
  Z.to_euclidean_division_equations. lia.
Qed.

Lemma join6 x lo hi :
  lo = x mod 16 -> hi = bits x 4 2 -> lo + 16 * hi = x mod 64.
Proof.
  intros -> ->. unfold bits. change (2 ^ 4) with 16. change (2 ^ 2) with 4.
  Z.to_euclidean_division_equations. lia.
Qed.

Lemma vsync_lo_unpack x y :
  let lo := x mod 16 * 16 + y mod 16 in
  Z.shiftr lo 4 = x mod 16 /\ Z.land lo 0xF = y mod 16.
Proof.
  intros lo. subst lo.
  rewrite Z.shiftr_div_pow2 by lia.
  change 0xF with (2 ^ 4 - 1). rewrite land_low_bits by lia.
  change (2 ^ 4) with 16.
  split; Z.to_euclidean_division_equations; lia.
Qed.

Section PixelTimingClaims.
Context {C : edid_constants}.

(** Every field that [detailed_timing_set_mode] packs unpacks to the
    value it was given, reduced to the width of the field. *)
Lemma detailed_timing_set_mode_unpack dt mode width_mm height_mm :
  detailed_timing_wf dt ->
  set_mode_accepts mode width_mm height_mm = true ->
  exists dt',
    detailed_timing_set_mode dt mode width_mm height_mm = Some dt' /\
    (pt_hactive dt' = hdisplay mode mod 4096 /\
     pt_hblank dt' = (htotal mode - hdisplay mode) mod 4096 /\
     pt_vactive dt' = vdisplay mode mod 4096 /\
     pt_vblank dt' = (vtotal mode - vdisplay mode) mod 4096) /\
    (pt_hsync_offset dt' = (hsync_start mode - hdisplay mode) mod 1024 /\
     pt_hsync_pulse_width dt'
     = (hsync_end mode - hsync_start mode) mod 1024 /\
     pt_vsync_offset dt' = (vsync_start mode - vdisplay mode) mod 64 /\
     pt_vsync_pulse_width dt'
     = (vsync_end mode - vsync_start mode) mod 64) /\
    (pt_width_mm dt' = width_mm mod 4096 /\
     pt_height_mm dt' = height_mm mod 4096).
Proof.
  intros Hwf Hacc.
  eexists.
  split; [apply detailed_timing_set_mode_image; [apply Hwf | exact Hacc]|].
  unfold pt_hactive, pt_hblank, pt_vactive, pt_vblank, pt_hsync_offset,
    pt_hsync_pulse_width, pt_vsync_offset, pt_vsync_pulse_width,
    pt_width_mm, pt_height_mm, pt_member, load.
  norm_offsets. cbn [nth].
  rewrite !low_byte, !nibbles_byte, vsync_lo_byte, sync_hi_byte.
  set (ho := hsync_start mode - hdisplay mode).
  set (hp := hsync_end mode - hsync_start mode).
  set (vo := vsync_start mode - vdisplay mode).
  set (vp := vsync_end mode - vsync_start mode).
  destruct (nibbles_unpack (hdisplay mode) (htotal mode - hdisplay mode))
    as [Hh1 Hh2].
  destruct (nibbles_unpack (vdisplay mode) (vtotal mode - vdisplay mode))
    as [Hv1 Hv2].
  destruct (nibbles_unpack width_mm height_mm) as [Hs1 Hs2].
  destruct (vsync_lo_unpack vo vp) as [Hl1 Hl2].
  destruct (sync_hi_unpack (bits ho 8 2) (bits hp 8 2)
              (bits vo 4 2) (bits vp 4 2))
    as (Hy1 & Hy2 & Hy3 & Hy4); try (apply (bits_range _ _ 2); lia).
  cbv zeta in Hh1, Hh2, Hv1, Hv2, Hs1, Hs2, Hl1, Hl2, Hy1, Hy2, Hy3, Hy4.
  rewrite Hh1, Hh2, Hv1, Hv2, Hs1, Hs2, Hl1, Hl2, Hy1, Hy2, Hy3, Hy4.
  repeat split;
    first [ apply join12; reflexivity
          | apply join10; reflexivity
          | apply join6; reflexivity ].
Qed.

(** X7: for a mode whose totals are not below its active sizes, the
    active and blanking fields of the descriptor unpack to the mode's
    active size and to the difference of total and active size, on both
    axes. *)
Theorem detailed_timing_set_mode_active_blank
    (dt : list Z) (mode : drmModeModeInfo) (width_mm height_mm : Z) :
  detailed_timing_wf dt ->
  mode_wf mode ->
  set_mode_accepts mode width_mm height_mm = true ->
  hdisplay mode <= htotal mode ->
  vdisplay mode <= vtotal mode ->
  exists dt',
    detailed_timing_set_mode dt mode width_mm height_mm = Some dt' /\
    pt_hactive dt' = hdisplay mode /\
    pt_hblank dt' = htotal mode - hdisplay mode /\
    pt_vactive dt' = vdisplay mode /\
    pt_vblank dt' = vtotal mode - vdisplay mode.
Proof.
  intros Hwf Hmode Hacc Hh Hv.
  destruct (detailed_timing_set_mode_unpack dt mode width_mm height_mm
              Hwf Hacc) as (dt' & Hrun & (Ha & Hb & Hc & Hd) & _).
  exists dt'. split; [exact Hrun|].
  apply set_mode_accepts_spec in Hacc.
  destruct Hacc as ((H1 & H2) & (H3 & H4) & _).
  apply Z.leb_le in H1, H2, H3, H4.
  destruct Hmode as (_ & ((Hd0 & _) & _) & ((Hd1 & _) & _) & _).
  rewrite Ha, Hb, Hc, Hd.
  repeat split; apply Z.mod_small; lia.
Qed.

(** X8: for a mode whose sync pulses start after the active area and
    end after they start, the four sync fields of the descriptor unpack
    to the sync offsets and pulse widths of the mode. *)
Theorem detailed_timing_set_mode_sync
    (dt : list Z) (mode : drmModeModeInfo) (width_mm height_mm : Z) :
  detailed_timing_wf dt ->
  mode_wf mode ->
  set_mode_accepts mode width_mm height_mm = true ->
  hdisplay mode <= hsync_start mode <= hsync_end mode ->
  vdisplay mode <= vsync_start mode <= vsync_end mode ->
  exists dt',
    detailed_timing_set_mode dt mode width_mm height_mm = Some dt' /\
    pt_hsync_offset dt' = hsync_start mode - hdisplay mode /\
    pt_hsync_pulse_width dt' = hsync_end mode - hsync_start mode /\
    pt_vsync_offset dt' = vsync_start mode - vdisplay mode /\
    pt_vsync_pulse_width dt' = vsync_end mode - vsync_start mode.
Proof.
  intros Hwf _ Hacc Hh Hv.
  destruct (detailed_timing_set_mode_unpack dt mode width_mm height_mm
              Hwf Hacc) as (dt' & Hrun & _ & (Ha & Hb & Hc & Hd) & _).
  exists dt'. split; [exact Hrun|].
  apply set_mode_accepts_spec in Hacc.
  destruct Hacc as (_ & _ & (H5 & H6 & H7 & H8) & _).
  apply Z.leb_le in H5, H6, H7, H8.
  rewrite Ha, Hb, Hc, Hd.
  repeat split; apply Z.mod_small; lia.
Qed.

(** X9: a physical size that is not negative is stored exactly: the two
    size fields of the descriptor unpack to the width and the height in
    millimetres. *)
Theorem detailed_timing_set_mode_size
    (dt : list Z) (mode : drmModeModeInfo) (width_mm height_mm : Z) :
  detailed_timing_wf dt ->
  mode_wf mode ->
  set_mode_accepts mode width_mm height_mm = true ->
  0 <= width_mm ->
  0 <= height_mm ->
  exists dt',
    detailed_timing_set_mode dt mode width_mm height_mm = Some dt' /\
    pt_width_mm dt' = width_mm /\
    pt_height_mm dt' = height_mm.
Proof.
  intros Hwf _ Hacc Hw Hh.
  destruct (detailed_timing_set_mode_unpack dt mode width_mm height_mm
              Hwf Hacc) as (dt' & Hrun & _ & _ & (Ha & Hb)).
  exists dt'. split; [exact Hrun|].
  apply set_mode_accepts_spec in Hacc.
  destruct Hacc as (_ & _ & _ & H9 & H10).
  apply Z.leb_le in H9, H10.
  rewrite Ha, Hb. split; apply Z.mod_small; lia.
Qed.

(** X10: the assertions bound the fields from above only.  A mode whose
    htotal is below its hdisplay passes them when the other bounds hold,
    and its negative blanking is stored modulo 4096: the field unpacks
    to [htotal - hdisplay + 4096]. *)
Theorem detailed_timing_set_mode_negative_blank
    (dt : list Z) (mode : drmModeModeInfo) (width_mm height_mm : Z) :
  detailed_timing_wf dt ->
  mode_wf mode ->
  set_mode_accepts mode width_mm height_mm = true ->
  htotal mode < hdisplay mode ->
  exists dt',
    detailed_timing_set_mode dt mode width_mm height_mm = Some dt' /\
    pt_hblank dt' = htotal mode - hdisplay mode + 4096.
Proof.
  intros Hwf Hmode Hacc Hneg.
  destruct (detailed_timing_set_mode_unpack dt mode width_mm height_mm
              Hwf Hacc) as (dt' & Hrun & (_ & Hb & _) & _).
  exists dt'. split; [exact Hrun|].
  apply set_mode_accepts_spec in Hacc.
  destruct Hacc as ((H1 & _) & _). apply Z.leb_le in H1.
  destruct Hmode as (_ & (_ & _ & _ & (Ht0 & _)) & _).
  rewrite Hb. Z.to_euclidean_division_equations. lia.
Qed.
End PixelTimingClaims.

(** 1280 active and 370 blank pixels, 720 active and 30 blank lines. *)
Lemma detailed_timing_set_mode_active_blank_witness :
  exists dt',
    detailed_timing_set_mode (C := edid_1_3) zero_descriptor
                             mode_720p 520 300 = Some dt' /\
    pt_hactive dt' = 1280 /\ pt_hblank dt' = 370 /\
    pt_vactive dt' = 720 /\ pt_vblank dt' = 30.
Proof.
  apply (detailed_timing_set_mode_active_blank (C := edid_1_3)
           zero_descriptor mode_720p 520 300);
    [check_bytes | check_mode | reflexivity | cbn; lia | cbn; lia].
Defined.

Lemma detailed_timing_set_mode_sync_witness :
  exists dt',
    detailed_timing_set_mode (C := edid_1_3) zero_descriptor
                             mode_720p 520 300 = Some dt' /\
    pt_hsync_offset dt' = 110 /\ pt_hsync_pulse_width dt' = 40 /\
    pt_vsync_offset dt' = 5 /\ pt_vsync_pulse_width dt' = 5.
Proof.
  apply (detailed_timing_set_mode_sync (C := edid_1_3)
           zero_descriptor mode_720p 520 300);
    [check_bytes | check_mode | reflexivity | cbn; lia | cbn; lia].
Defined.

Lemma detailed_timing_set_mode_size_witness :
  exists dt',
    detailed_timing_set_mode (C := edid_1_3) zero_descriptor
                             mode_720p 520 300 = Some dt' /\
    pt_width_mm dt' = 520 /\ pt_height_mm dt' = 300.
Proof.
  apply (detailed_timing_set_mode_size (C := edid_1_3)
           zero_descriptor mode_720p 520 300);
    [check_bytes | check_mode | reflexivity | lia | lia].
Defined.

(** The stored blanking of 1000 - 1280 is 3816. *)
Lemma detailed_timing_set_mode_negative_blank_witness :
  exists dt',
    detailed_timing_set_mode (C := edid_1_3) zero_descriptor
                             mode_short_htotal 520 300 = Some dt' /\
    pt_hblank dt' = 3816.
Proof.
  apply (detailed_timing_set_mode_negative_blank (C := edid_1_3)
           zero_descriptor mode_short_htotal 520 300);
    [check_bytes | check_mode | reflexivity | cbn; lia].
Defined.

Section PixelTimingFrame.
Context {C : edid_constants}.

(** X11: [detailed_timing_set_mode] never writes the two border bytes
    (offsets 15 and 16): they keep what the descriptor held before.
    Every other byte of the result is the same whatever the descriptor
    held before. *)
Theorem detailed_timing_set_mode_borders
    (dt1 dt2 : list Z) (mode : drmModeModeInfo) (width_mm height_mm : Z)
    (off : nat) :
  detailed_timing_wf dt1 ->
  detailed_timing_wf dt2 ->
  mode_wf mode ->
  set_mode_accepts mode width_mm height_mm = true ->
  off <> 15%nat ->
  off <> 16%nat ->
  exists dt1' dt2',
    detailed_timing_set_mode dt1 mode width_mm height_mm = Some dt1' /\
    detailed_timing_set_mode dt2 mode width_mm height_mm = Some dt2' /\
    pt_member dt1' PixelTiming.hborder = pt_member dt1 PixelTiming.hborder /\
    pt_member dt1' PixelTiming.vborder = pt_member dt1 PixelTiming.vborder /\
    load dt1' off = load dt2' off.
Proof.
  intros Hwf1 Hwf2 _ Hacc H15 H16.
  eexists. eexists.
  split; [apply detailed_timing_set_mode_image; [apply Hwf1 | exact Hacc]|].
  split; [apply detailed_timing_set_mode_image; [apply Hwf2 | exact Hacc]|].
  split; [reflexivity|]. split; [reflexivity|].
  unfold load.
  do 15 (destruct off as [|off]; [reflexivity|]).
  destruct off as [|off]; [contradiction|].
  destruct off as [|off]; [contradiction|].
  destruct off as [|off]; [reflexivity|].
  destruct off; reflexivity.
Qed.

(** X12: [detailed_timing_set_mode] aborts exactly when one of its ten
    upper bounds is exceeded: an active size or a blanking above 0xFFF,
    a horizontal sync offset or pulse width above 0x3FF, a vertical one
    above 0x3F, or a physical size above 0xFFF. *)
Theorem detailed_timing_set_mode_aborts
    (dt : list Z) (mode : drmModeModeInfo) (width_mm height_mm : Z) :
  detailed_timing_set_mode dt mode width_mm height_mm = None
  <-> (0xFFF < hdisplay mode \/ 0xFFF < htotal mode - hdisplay mode \/
       0xFFF < vdisplay mode \/ 0xFFF < vtotal mode - vdisplay mode \/
       0x3FF < hsync_start mode - hdisplay mode \/
       0x3FF < hsync_end mode - hsync_start mode \/
       0x3F < vsync_start mode - vdisplay mode \/
       0x3F < vsync_end mode - vsync_start mode \/
       0xFFF < width_mm \/ 0xFFF < height_mm).
Proof.
  transitivity (set_mode_accepts mode width_mm height_mm = false).
  - split.
    + intros Hnone.
      destruct (set_mode_accepts mode width_mm height_mm) eqn:Hacc;
        [|reflexivity].
      apply set_mode_accepts_spec in Hacc.
      destruct Hacc
        as ((H1 & H2) & (H3 & H4) & (H5 & H6 & H7 & H8) & H9 & H10).
      unfold detailed_timing_set_mode in Hnone. cbv zeta in Hnone.
      rewrite H1, H2, H3, H4, H5, H6, H7, H8, H9, H10 in Hnone.
      rewrite !assert_true in Hnone. discriminate Hnone.
    + apply detailed_timing_set_mode_none.
  - unfold set_mode_accepts. rewrite !andb_false_iff, !Z.leb_gt. tauto.
Qed.
End PixelTimingFrame.

(** A descriptor full of 0xAA keeps 0xAA in its borders; its first byte
    becomes that of the zeroed descriptor. *)
Lemma detailed_timing_set_mode_borders_witness :
  exists dt1' dt2',
    detailed_timing_set_mode (C := edid_1_3) stale_descriptor
                             mode_720p 520 300 = Some dt1' /\
    detailed_timing_set_mode (C := edid_1_3) zero_descriptor
                             mode_720p 520 300 = Some dt2' /\
    pt_member dt1' PixelTiming.hborder = 0xAA /\
    pt_member dt1' PixelTiming.vborder = 0xAA /\
    load dt1' 0 = load dt2' 0.
Proof.
  apply (detailed_timing_set_mode_borders (C := edid_1_3)
           stale_descriptor zero_descriptor mode_720p 520 300 0);
    [check_bytes | check_bytes | check_mode | reflexivity | lia | lia].
Defined.

(** ** More on the monitor range *)

Section RangeClaims.
Context {C : edid_constants}.

(** The 18 bytes that [detailed_timing_set_monitor_range_mode]
    returns. *)
Lemma detailed_timing_set_monitor_range_mode_image dt mode :
  length dt = 18%nat ->
  htotal mode <> 0 ->
  detailed_timing_set_monitor_range_mode dt mode
  = Some
      [0; 0; load dt 2; u8 EDID_DETAIL_MONITOR_RANGE; load dt 4;
       u8 (u32 (vrefresh mode - 1)); u8 (u32 (vrefresh mode + 1));
       u8 (u32 (clock mode / htotal mode - 1));
       u8 (u32 (clock mode / htotal mode + 1));
       u8 (u32 (clock mode / 10000 + 1)); 0;
       0x0a; 0x20; 0x20; 0x20; 0x20; 0x20; 0x20].
Proof.
  intros Hlen Hht.
  unfold detailed_timing_set_monitor_range_mode. cbv zeta.
  replace (htotal mode =? 0) with false
    by (symmetry; apply Z.eqb_neq; exact Hht).
  explode18 dt Hlen. reflexivity.
Qed.

(** X13: when nothing wraps (a refresh rate from 1 to 254 Hz, a line
    rate from 1 to 254 kHz, a clock below 2550 MHz), the range that
    [detailed_timing_set_monitor_range_mode] stores contains the mode:
    the refresh rate is strictly between the two vertical limits, the
    line rate clock / htotal strictly between the two horizontal limits,
    and the clock is below the pixel-clock limit, by at most 10 MHz. *)
Theorem detailed_timing_set_monitor_range_mode_contains
    (dt : list Z) (mode : drmModeModeInfo) :
  detailed_timing_wf dt ->
  mode_wf mode ->
  0 < htotal mode ->
  1 <= vrefresh mode <= 254 ->
  htotal mode <= clock mode < 255 * htotal mode ->
  clock mode < 2550000 ->
  exists dt',
    detailed_timing_set_monitor_range_mode dt mode = Some dt' /\
    range_member dt' MonitorRange.min_vfreq < vrefresh mode
    < range_member dt' MonitorRange.max_vfreq /\
    range_member dt' MonitorRange.min_hfreq_khz * htotal mode < clock mode
    < range_member dt' MonitorRange.max_hfreq_khz * htotal mode /\
    clock mode < range_member dt' MonitorRange.pixel_clock_mhz * 10000
    <= clock mode + 10000.
Proof.
  intros Hwf _ Hht Hv Hc Hp.
  eexists.
  split;
    [apply detailed_timing_set_monitor_range_mode_image; [apply Hwf | lia]|].
  unfold range_member, load. norm_offsets. cbn [nth].
  rewrite !u8_u32.
  assert (Hq : 1 <= clock mode / htotal mode <= 254).
  { split; [apply Z.div_le_lower_bound; lia|].
    assert (clock mode / htotal mode < 255); [|lia].
    apply Z.div_lt_upper_bound; lia. }
  pose proof (Z.div_mod (clock mode) (htotal mode)) as Hdm.
  pose proof (Z.mod_pos_bound (clock mode) (htotal mode) Hht) as Hmb.
  set (q := clock mode / htotal mode) in *.
  set (r := clock mode mod htotal mode) in *.
  assert (Hp' : 0 <= clock mode / 10000 < 255).
  { split; [apply Z.div_pos; lia | apply Z.div_lt_upper_bound; lia]. }
  pose proof (Z.div_mod (clock mode) 10000) as Hdm'.
  pose proof (Z.mod_pos_bound (clock mode) 10000) as Hmb'.
  rewrite !Z.mod_small by lia.
  repeat split; nia.
Qed.

(** X14: the vertical limits wrap at the ends of the byte: the stored
    minimum is below the stored maximum unless vrefresh is 0 or 255
    modulo 256, where the minimum 255, or the maximum 0, inverts the
    range. *)
Theorem detailed_timing_set_monitor_range_mode_inverted
    (dt : list Z) (mode : drmModeModeInfo) :
  detailed_timing_wf dt ->
  mode_wf mode ->
  htotal mode <> 0 ->
  exists dt',
    detailed_timing_set_monitor_range_mode dt mode = Some dt' /\
    (range_member dt' MonitorRange.min_vfreq
     < range_member dt' MonitorRange.max_vfreq
     <-> vrefresh mode mod 256 <> 0 /\ vrefresh mode mod 256 <> 255).
Proof.
  intros Hwf _ Hht.
  eexists.
  split;
    [apply detailed_timing_set_monitor_range_mode_image;
     [apply Hwf | exact Hht]|].
  unfold range_member, load. norm_offsets. cbn [nth].
  rewrite !u8_u32.
  Z.to_euclidean_division_equations. lia.
Qed.

(** X15: the rest of a monitor-range descriptor: the type byte holds
    the monitor-range tag, the flags byte is zero, the last seven bytes
    are a newline and six spaces, and the two pad bytes around the type
    byte (offsets 2 and 4) keep what the descriptor held before. *)
Theorem detailed_timing_set_monitor_range_mode_fixed
    (dt : list Z) (mode : drmModeModeInfo) :
  detailed_timing_wf dt ->
  mode_wf mode ->
  htotal mode <> 0 ->
  exists dt',
    detailed_timing_set_monitor_range_mode dt mode = Some dt' /\
    length dt' = 18%nat /\
    load dt' (DetailedTiming.data + NonPixel.type)
    = u8 EDID_DETAIL_MONITOR_RANGE /\
    range_member dt' MonitorRange.flags = 0 /\
    sub dt' 11 7 = [0x0a; 0x20; 0x20; 0x20; 0x20; 0x20; 0x20] /\
    load dt' (DetailedTiming.data + NonPixel.pad1)
    = load dt (DetailedTiming.data + NonPixel.pad1) /\
    load dt' (DetailedTiming.data + NonPixel.pad2)
    = load dt (DetailedTiming.data + NonPixel.pad2).
Proof.
  intros Hwf _ Hht.
  eexists.
  split;
    [apply detailed_timing_set_monitor_range_mode_image;
     [apply Hwf | exact Hht]|].
  repeat split.
Qed.
End RangeClaims.

Lemma detailed_timing_set_monitor_range_mode_contains_witness :
  exists dt',
    detailed_timing_set_monitor_range_mode (C := edid_1_3) zero_descriptor
                                           mode_720p = Some dt' /\
    range_member dt' MonitorRange.min_vfreq < 60
    < range_member dt' MonitorRange.max_vfreq /\
    range_member dt' MonitorRange.min_hfreq_khz * 1650 < 74250
    < range_member dt' MonitorRange.max_hfreq_khz * 1650 /\
    74250 < range_member dt' MonitorRange.pixel_clock_mhz * 10000
    <= 74250 + 10000.
Proof.
  apply (detailed_timing_set_monitor_range_mode_contains (C := edid_1_3)
           zero_descriptor mode_720p);
    [check_bytes | check_mode | cbn; lia | cbn; lia | cbn; lia | cbn; lia].
Defined.

Lemma detailed_timing_set_monitor_range_mode_inverted_witness :
  exists dt',
    detailed_timing_set_monitor_range_mode (C := edid_1_3) zero_descriptor
                                           mode_720p = Some dt' /\
    (range_member dt' MonitorRange.min_vfreq
     < range_member dt' MonitorRange.max_vfreq
     <-> 60 mod 256 <> 0 /\ 60 mod 256 <> 255).
Proof.
  apply (detailed_timing_set_monitor_range_mode_inverted (C := edid_1_3)
           zero_descriptor mode_720p);
    [check_bytes | check_mode | discriminate].
Defined.

Lemma detailed_timing_set_monitor_range_mode_fixed_witness :
  exists dt',
    detailed_timing_set_monitor_range_mode (C := edid_1_3) stale_descriptor
                                           mode_720p = Some dt' /\
    length dt' = 18%nat /\
    load dt' 3 = 0xfd /\
    range_member dt' MonitorRange.flags = 0 /\
    sub dt' 11 7 = [0x0a; 0x20; 0x20; 0x20; 0x20; 0x20; 0x20] /\
    load dt' 2 = 0xAA /\
    load dt' 4 = 0xAA.
Proof.
  apply (detailed_timing_set_monitor_range_mode_fixed (C := edid_1_3)
           stale_descriptor mode_720p);
    [check_bytes | check_mode | discriminate].
Defined.

(** ** More on string descriptors *)

Lemma nth_strncpy_bytes src n i :
  (i < strlen src)%nat -> (i < n)%nat ->
  nth i (strncpy_bytes src n) 0 = nth i src 0.
Proof.
  revert src i. induction n as [|n IH]; intros src i Hi Hn; [lia|].
  destruct src as [|c src]; [cbn in Hi; lia|].
  cbn [strncpy_bytes strlen] in *.
  destruct (c =? 0); [lia|].
  destruct i as [|i]; [reflexivity|].
  cbn [nth]. apply IH; lia.
Qed.

Section StringImage.
Context {C : edid_constants}.

(** The 18 bytes that [detailed_timing_set_string] returns. *)
Lemma detailed_timing_set_string_image dt type str :
  length dt = 18%nat ->
  is_string_type type = true ->
  detailed_timing_set_string dt type str
  = Some ([0; 0; load dt 2; u8 type; load dt 4]
          ++ (if (strlen str <? 13)%nat
              then <[strlen str := 10]> (strncpy_bytes str 13)
              else strncpy_bytes str 13)).
Proof.
  intros Hlen Hty. unfold detailed_timing_set_string. cbv zeta.
  rewrite Hty, assert_true. unfold strncpy, memcpy.
  rewrite length_strncpy_bytes.
  explode18 dt Hlen.
  cbv [DetailedTiming.pixel_clock DetailedTiming.data NonPixel.type
       NonPixel.data DataString.str DataString.sizeof_str].
  change (2 + 3 + 0)%nat with 5%nat. change (2 + 1)%nat with 3%nat.
  change (5 + 13)%nat with 18%nat.
  set (bytes := strncpy_bytes str 13).
  cbn [store take drop list_insert insert app load nth].
  rewrite app_nil_r.
  destruct (strlen str <? 13)%nat; reflexivity.
Qed.

Lemma length_string_bytes str :
  length (if (strlen str <? 13)%nat
          then <[strlen str := 10]> (strncpy_bytes str 13)
          else strncpy_bytes str 13) = 13%nat.
Proof.
  destruct (strlen str <? 13)%nat;
    rewrite ?length_insert; apply length_strncpy_bytes.
Qed.

(** X16: [detailed_timing_set_string] aborts exactly when the type is
    none of the three string types. *)
Theorem detailed_timing_set_string_aborts
    (dt : list Z) (type : Z) (str : list Z) :
  detailed_timing_set_string dt type str = None
  <-> type <> EDID_DETAIL_MONITOR_NAME /\
      type <> EDID_DETAIL_MONITOR_STRING /\
      type <> EDID_DETAIL_MONITOR_SERIAL.
Proof.
  unfold detailed_timing_set_string. cbv zeta.
  destruct (is_string_type type) eqn:Hty; unfold is_string_type in Hty.
  - rewrite assert_true.
    rewrite !orb_true_iff, !Z.eqb_eq in Hty.
    split; [discriminate | intros (H1 & H2 & H3); tauto].
  - rewrite !orb_false_iff, !Z.eqb_neq in Hty.
    split; [intros _; tauto | reflexivity].
Qed.

(** X17: a string of fewer than 13 characters fills the whole payload:
    its characters, a newline, then NUL bytes up to the 13th byte,
    whatever the descriptor held before; the type byte holds the
    type. *)
Theorem detailed_timing_set_string_short
    (dt : list Z) (type : Z) (str : list Z) :
  detailed_timing_wf dt ->
  is_string_type type = true ->
  (strlen str < 13)%nat ->
  exists dt',
    detailed_timing_set_string dt type str = Some dt' /\
    load dt' (DetailedTiming.data + NonPixel.type) = u8 type /\
    string_payload dt'
    = take (strlen str) str ++ 10 :: replicate (12 - strlen str) 0.
Proof.
  intros Hwf Hty Hshort.
  eexists.
  split; [apply detailed_timing_set_string_image; [apply Hwf | exact Hty]|].
  split; [reflexivity|].
  replace (strlen str <? 13)%nat with true
    by (symmetry; apply Nat.ltb_lt; exact Hshort).
  unfold string_payload, sub. norm_offsets. cbn [drop app].
  rewrite drop_0.
  rewrite take_ge by (rewrite length_insert, length_strncpy_bytes; lia).
  rewrite strncpy_bytes_short by exact Hshort.
  pose proof (strlen_le_length str) as Hle.
  rewrite insert_app_r_alt by (rewrite length_take; lia).
  rewrite length_take.
  replace (strlen str - strlen str `min` length str)%nat with 0%nat by lia.
  replace (13 - strlen str)%nat with (S (12 - strlen str)) by lia.
  reflexivity.
Qed.

(** X18: the two non-pixel encoders write the same 16 bytes of a
    descriptor and leave the same two, so the one that runs last
    decides the result: a string written over a monitor range, or a
    monitor range written over a string, gives what it gives on the
    descriptor that the first encoder was given. *)
Theorem detailed_timing_non_pixel_overwrite
    (dt : list Z) (mode : drmModeModeInfo) (type : Z) (str : list Z) :
  detailed_timing_wf dt ->
  mode_wf mode ->
  htotal mode <> 0 ->
  is_string_type type = true ->
  exists range string,
    detailed_timing_set_monitor_range_mode dt mode = Some range /\
    detailed_timing_set_string dt type str = Some string /\
    detailed_timing_set_string range type str = Some string /\
    detailed_timing_set_monitor_range_mode string mode = Some range.
Proof.
  intros [Hlen _] _ Hht Hty.
  eexists. eexists.
  split; [apply detailed_timing_set_monitor_range_mode_image; assumption|].
  split; [apply detailed_timing_set_string_image; assumption|].
  split.
  - rewrite detailed_timing_set_string_image by (reflexivity || exact Hty).
    reflexivity.
  - rewrite detailed_timing_set_monitor_range_mode_image;
      [reflexivity | | exact Hht].
    rewrite length_app, length_string_bytes. reflexivity.
Qed.

(** X19: a pixel timing written over a string descriptor keeps two
    bytes of the string: for a string of 12 characters or more, the
    horizontal and the vertical border of the result are its characters
    10 and 11. *)
Theorem detailed_timing_set_mode_over_string
    (dt : list Z) (type : Z) (str : list Z)
    (mode : drmModeModeInfo) (width_mm height_mm : Z) :
  detailed_timing_wf dt ->
  mode_wf mode ->
  is_string_type type = true ->
  set_mode_accepts mode width_mm height_mm = true ->
  (12 <= strlen str)%nat ->
  exists string timing,
    detailed_timing_set_string dt type str = Some string /\
    detailed_timing_set_mode string mode width_mm height_mm = Some timing /\
    pt_member timing PixelTiming.hborder = nth 10 str 0 /\
    pt_member timing PixelTiming.vborder = nth 11 str 0.
Proof.
  intros [Hlen _] _ Hty Hacc Hlong.
  eexists. eexists.
  split; [apply detailed_timing_set_string_image; assumption|].
  split.
  { apply detailed_timing_set_mode_image; [|exact Hacc].
    rewrite length_app, length_string_bytes. reflexivity. }
  unfold pt_member, load. norm_offsets. cbn [nth app].
  destruct (strlen str <? 13)%nat eqn:Hshort.
  - apply Nat.ltb_lt in Hshort.
    assert (Hlen12 : strlen str = 12%nat) by lia. rewrite Hlen12.
    rewrite !nth_lookup, !list_lookup_insert_ne by lia.
    rewrite <- !nth_lookup.
    split; apply nth_strncpy_bytes; lia.
  - split; apply nth_strncpy_bytes; lia.
Qed.
End StringImage.

(** The empty string: a newline and twelve NUL bytes. *)
Lemma detailed_timing_set_string_short_witness :
  exists dt',
    detailed_timing_set_string (C := edid_1_3) stale_descriptor 0xfe []
    = Some dt' /\
    load dt' 3 = 0xfe /\
    string_payload dt' = [10; 0; 0; 0; 0; 0; 0; 0; 0; 0; 0; 0; 0].
Proof.
  apply (detailed_timing_set_string_short (C := edid_1_3)
           stale_descriptor 0xfe []);
    [check_bytes | reflexivity | cbn; lia].
Defined.

Lemma detailed_timing_non_pixel_overwrite_witness :
  exists range string,
    detailed_timing_set_monitor_range_mode (C := edid_1_3) stale_descriptor
                                           mode_720p = Some range /\
    detailed_timing_set_string (C := edid_1_3) stale_descriptor 0xfc
                               (chars "IGT") = Some string /\
    detailed_timing_set_string (C := edid_1_3) range 0xfc (chars "IGT")
    = Some string /\
    detailed_timing_set_monitor_range_mode (C := edid_1_3) string mode_720p
    = Some range.
Proof.
  apply (detailed_timing_non_pixel_overwrite (C := edid_1_3)
           stale_descriptor mode_720p 0xfc (chars "IGT"));
    [check_bytes | check_mode | discriminate | reflexivity].
Defined.

(** "IGT-MONITOR-X": the borders become 'R' and '-'. *)
Lemma detailed_timing_set_mode_over_string_witness :
  exists string timing,
    detailed_timing_set_string (C := edid_1_3) zero_descriptor 0xfc
                               long_name = Some string /\
    detailed_timing_set_mode (C := edid_1_3) string mode_720p 520 300
    = Some timing /\
    pt_member timing PixelTiming.hborder = 82 /\
    pt_member timing PixelTiming.vborder = 45.
Proof.
  apply (detailed_timing_set_mode_over_string (C := edid_1_3)
           zero_descriptor 0xfc long_name mode_720p 520 300);
    [check_bytes | check_mode | reflexivity | reflexivity
    | vm_compute; lia].
Defined.

(** ** Initialisation with a mode *)

Lemma at_member_some buf off len f m :
  f (sub buf off len) = Some m ->
  at_member buf off len f = Some (memcpy buf off m).
Proof. intros H. unfold at_member. rewrite H. reflexivity. Qed.

Lemma at_member_none buf off len f :
  f (sub buf off len) = None -> at_member buf off len f = None.
Proof. intros H. unfold at_member. rewrite H. reflexivity. Qed.

Lemma load_range buf off : Forall is_u8 buf -> is_u8 (load buf off).
Proof.
  intros Hall. unfold load.
  destruct (nth_lookup_or_length buf off 0) as [Hnth | Hge].
  - rewrite Forall_lookup in Hall. apply (Hall _ _ Hnth).
  - rewrite nth_overflow by lia. unfold is_u8. lia.
Qed.

Lemma strncpy_bytes_range src n :
  Forall is_u8 src -> Forall is_u8 (strncpy_bytes src n).
Proof.
  revert src. induction n as [|n IH]; intros src Hsrc; [constructor|].
  assert (Hpad : Forall is_u8 (replicate (S n) 0))
    by (apply Forall_replicate; unfold is_u8; lia).
  cbn [strncpy_bytes]. destruct src as [|c src]; [exact Hpad|].
  destruct (c =? 0); [exact Hpad|].
  inversion Hsrc; subst. constructor; [assumption | apply IH; assumption].
Qed.

(** A list of bytes, entry by entry. *)
Ltac bytes_range :=
  repeat first
    [ apply u8_range
    | apply load_range; assumption
    | (unfold is_u8; lia)
    | apply List.Forall_nil
    | apply List.Forall_cons ].

Lemma byte_sum_edid_update_checksum edid :
  edid_wf edid -> byte_sum (edid_update_checksum edid) mod 256 = 0.
Proof.
  intros Hwf. rewrite (edid_update_checksum_image edid Hwf).
  rewrite byte_sum_app. unfold byte_sum at 2. cbn [foldr].
  Z.to_euclidean_division_equations. lia.
Qed.

Section InitWithMode.
Context {C : edid_constants}.

Lemma detailed_timing_set_mode_wf dt mode width_mm height_mm dt' :
  detailed_timing_wf dt ->
  detailed_timing_set_mode dt mode width_mm height_mm = Some dt' ->
  detailed_timing_wf dt'.
Proof.
  intros [Hlen Hall] Hrun.
  destruct (set_mode_accepts mode width_mm height_mm) eqn:Hacc.
  - rewrite (detailed_timing_set_mode_image _ _ _ _ Hlen Hacc) in Hrun.
    injection Hrun as <-. split; [reflexivity | bytes_range].
  - rewrite detailed_timing_set_mode_none in Hrun by exact Hacc.
    discriminate Hrun.
Qed.

Lemma detailed_timing_set_monitor_range_mode_wf dt mode dt' :
  detailed_timing_wf dt ->
  detailed_timing_set_monitor_range_mode dt mode = Some dt' ->
  detailed_timing_wf dt'.
Proof.
  intros [Hlen Hall] Hrun.
  destruct (Z.eq_dec (htotal mode) 0) as [Hht | Hht].
  - unfold detailed_timing_set_monitor_range_mode in Hrun. cbv zeta in Hrun.
    rewrite Hht in Hrun. discriminate Hrun.
  - rewrite (detailed_timing_set_monitor_range_mode_image _ _ Hlen Hht)
      in Hrun.
    injection Hrun as <-. split; [reflexivity | bytes_range].
Qed.

Lemma detailed_timing_set_string_wf dt type str dt' :
  detailed_timing_wf dt ->
  Forall is_u8 str ->
  detailed_timing_set_string dt type str = Some dt' ->
  detailed_timing_wf dt'.
Proof.
  intros [Hlen Hall] Hstr Hrun.
  destruct (is_string_type type) eqn:Hty.
  - rewrite (detailed_timing_set_string_image _ _ _ Hlen Hty) in Hrun.
    injection Hrun as <-. split.
    + cbn [app length]. rewrite length_string_bytes. reflexivity.
    + cbn [app]. do 5 (apply List.Forall_cons; [bytes_range|]).
      pose proof (strncpy_bytes_range str 13 Hstr) as Hcpy.
      destruct (strlen str <? 13)%nat; [|exact Hcpy].
      apply Forall_insert; [exact Hcpy | unfold is_u8; lia].
  - unfold detailed_timing_set_string in Hrun. cbv zeta in Hrun.
    rewrite Hty in Hrun. discriminate Hrun.
Qed.

(** [edid_init_with_mode] puts the three descriptors behind the first
    54 bytes of [edid_init] and leaves the last 20 bytes zero. *)
Lemma edid_init_with_mode_image edid tm_year mode d0 d1 d2 :
  detailed_timing_set_mode zero_descriptor mode 520 300 = Some d0 ->
  detailed_timing_set_monitor_range_mode zero_descriptor mode = Some d1 ->
  detailed_timing_set_string zero_descriptor EDID_DETAIL_MONITOR_NAME
                             (chars "IGT") = Some d2 ->
  length d0 = 18%nat -> length d1 = 18%nat -> length d2 = 18%nat ->
  exists e0,
    edid_init edid tm_year = Some e0 /\
    edid_wf e0 /\
    edid_init_with_mode edid tm_year mode
    = Some (take 54 e0 ++ d0 ++ d1 ++ d2 ++ replicate 20 0).
Proof.
  intros H0 H1 H2 L0 L1 L2.
  eexists. split; [apply edid_init_bytes|].
  split.
  { split; [reflexivity|].
    apply Forall_app. split; [bytes_range|].
    apply Forall_replicate. unfold is_u8. lia. }
  unfold edid_init_with_mode. rewrite edid_init_bytes.
  cbn [mbind option_bind].
  explode18 d0 L0. explode18 d1 L1. explode18 d2 L2.
  rewrite (at_member_some _ _ _ _ _ H0). cbn [mbind option_bind].
  rewrite (at_member_some _ _ _ _ _ H1). cbn [mbind option_bind].
  rewrite (at_member_some _ _ _ _ _ H2).
  reflexivity.
Qed.

Lemma is_string_type_name : is_string_type EDID_DETAIL_MONITOR_NAME = true.
Proof. unfold is_string_type. rewrite Z.eqb_refl. reflexivity. Qed.

Lemma zero_descriptor_wf : detailed_timing_wf zero_descriptor.
Proof. apply bytes_wfb_ok. reflexivity. Qed.

Lemma chars_igt_range : Forall is_u8 (chars "IGT").
Proof. cbn. bytes_range. Qed.

(** The descriptors of [edid_init_with_mode] and the record they are
    put in, when the mode passes the assertions and htotal is not
    zero. *)
Lemma edid_init_with_mode_some edid tm_year mode :
  set_mode_accepts mode 520 300 = true ->
  htotal mode <> 0 ->
  exists e0 d0 d1 d2,
    edid_init edid tm_year = Some e0 /\
    edid_wf e0 /\
    (detailed_timing_set_mode zero_descriptor mode 520 300 = Some d0 /\
     detailed_timing_wf d0) /\
    (detailed_timing_set_monitor_range_mode zero_descriptor mode = Some d1 /\
     detailed_timing_wf d1) /\
    (detailed_timing_set_string zero_descriptor EDID_DETAIL_MONITOR_NAME
                                (chars "IGT") = Some d2 /\
     detailed_timing_wf d2) /\
    edid_init_with_mode edid tm_year mode
    = Some (take 54 e0 ++ d0 ++ d1 ++ d2 ++ replicate 20 0).
Proof.
  intros Hacc Hht.
  pose proof zero_descriptor_wf as Hz.
  destruct (detailed_timing_set_mode_some zero_descriptor mode 520 300
              Hz Hacc) as (d0 & H0 & _).
  destruct (detailed_timing_set_monitor_range_mode_some zero_descriptor mode
              Hz Hht) as (d1 & H1 & _).
  destruct (detailed_timing_set_string_some zero_descriptor
              EDID_DETAIL_MONITOR_NAME (chars "IGT") Hz is_string_type_name)
    as (d2 & H2 & _).
  pose proof (detailed_timing_set_mode_wf _ _ _ _ _ Hz H0) as W0.
  pose proof (detailed_timing_set_monitor_range_mode_wf _ _ _ Hz H1) as W1.
  pose proof (detailed_timing_set_string_wf _ _ _ _ Hz chars_igt_range H2)
    as W2.
  destruct (edid_init_with_mode_image edid tm_year mode d0 d1 d2 H0 H1 H2
              (proj1 W0) (proj1 W1) (proj1 W2)) as (e0 & He0 & Hwf0 & Hrun).
  exists e0, d0, d1, d2.
  split; [exact He0|]. split; [exact Hwf0|].
  split; [split; assumption|]. split; [split; assumption|].
  split; [split; assumption | exact Hrun].
Qed.
End InitWithMode.

Section InitWithModeClaims.
Context {C : edid_constants}.

(** X20: for a mode that passes the assertions with the default size
    of 520 x 300 mm and has a nonzero htotal, [edid_init_with_mode]
    returns a well-formed record: its first 54 bytes are those of
    [edid_init]; descriptors 0, 1 and 2 are what the three descriptor
    encoders return on a zeroed descriptor (the pixel timing of the mode,
    its monitor range, the name "IGT"); descriptor 3, the extension
    count and the checksum are left zero. *)
Theorem edid_init_with_mode_layout
    (edid : list Z) (tm_year : Z) (mode : drmModeModeInfo) :
  mode_wf mode ->
  set_mode_accepts mode 520 300 = true ->
  htotal mode <> 0 ->
  exists e0 edid',
    edid_init edid tm_year = Some e0 /\
    edid_init_with_mode edid tm_year mode = Some edid' /\
    edid_wf edid' /\
    take 54 edid' = take 54 e0 /\
    detailed_timing_set_mode zero_descriptor mode 520 300
    = Some (descriptor edid' 0) /\
    detailed_timing_set_monitor_range_mode zero_descriptor mode
    = Some (descriptor edid' 1) /\
    detailed_timing_set_string zero_descriptor EDID_DETAIL_MONITOR_NAME
                               (chars "IGT")
    = Some (descriptor edid' 2) /\
    descriptor edid' 3 = zero_descriptor /\
    load edid' Edid.extensions = 0 /\
    load edid' Edid.checksum = 0.
Proof.
  intros _ Hacc Hht.
  destruct (edid_init_with_mode_some edid tm_year mode Hacc Hht)
    as (e0 & d0 & d1 & d2 & He0 & Hwf0 & (H0 & W0) & (H1 & W1)
        & (H2 & W2) & Hrun).
  exists e0. eexists.
  split; [exact He0|]. split; [exact Hrun|].
  pose proof (proj1 W0) as L0. pose proof (proj1 W1) as L1.
  pose proof (proj1 W2) as L2. pose proof (proj1 Hwf0) as Le.
  change DetailedTiming.sizeof with 18%nat in L0, L1, L2.
  change Edid.sizeof with 128%nat in Le.
  split.
  { split.
    - rewrite !length_app, length_take, length_replicate, L0, L1, L2, Le.
      reflexivity.
    - rewrite !Forall_app.
      split; [apply Forall_take; apply Hwf0|].
      split; [apply W0|]. split; [apply W1|]. split; [apply W2|].
      apply Forall_replicate. unfold is_u8. lia. }
  split; [apply take_app_length'; rewrite length_take; lia|].
  rewrite H0, H1, H2.
  rewrite edid_init_bytes in He0. injection He0 as <-.
  explode18 d0 L0. explode18 d1 L1. explode18 d2 L2.
  repeat split.
Qed.

(** X21: [edid_init_with_mode] has no result exactly when the mode
    fails an assertion of [detailed_timing_set_mode] for a size of
    520 x 300 mm, or its htotal is zero. *)
Theorem edid_init_with_mode_aborts
    (edid : list Z) (tm_year : Z) (mode : drmModeModeInfo) :
  edid_init_with_mode edid tm_year mode = None
  <-> set_mode_accepts mode 520 300 = false \/ htotal mode = 0.
Proof.
  split.
  - intros Hnone.
    destruct (set_mode_accepts mode 520 300) eqn:Hacc; [|left; reflexivity].
    destruct (Z.eq_dec (htotal mode) 0) as [Hht | Hht]; [right; exact Hht|].
    destruct (edid_init_with_mode_some edid tm_year mode Hacc Hht)
      as (e0 & d0 & d1 & d2 & _ & _ & _ & _ & _ & Hrun).
    rewrite Hrun in Hnone. discriminate Hnone.
  - intros Hcause.
    unfold edid_init_with_mode. rewrite edid_init_bytes.
    cbn [mbind option_bind].
    destruct (set_mode_accepts mode 520 300) eqn:Hacc.
    + destruct Hcause as [Hfalse | Hht]; [discriminate Hfalse|].
      destruct (detailed_timing_set_mode_some zero_descriptor mode 520 300
                  zero_descriptor_wf Hacc) as (d0 & H0 & L0 & _).
      explode18 d0 L0.
      rewrite (at_member_some _ _ _ _ _ H0). cbn [mbind option_bind].
      rewrite at_member_none; [reflexivity|].
      unfold detailed_timing_set_monitor_range_mode. cbv zeta.
      rewrite Hht. reflexivity.
    + rewrite at_member_none; [reflexivity|].
      apply (detailed_timing_set_mode_none _ mode 520 300 Hacc).
Qed.

(** X22: the whole sequence: after [edid_init_with_mode] and
    [edid_update_checksum] the record is well formed, its 128 bytes sum
    to 0 modulo 256, and its first 127 bytes are those that
    [edid_init_with_mode] returned. *)
Theorem edid_init_with_mode_checksum
    (edid : list Z) (tm_year : Z) (mode : drmModeModeInfo) :
  mode_wf mode ->
  set_mode_accepts mode 520 300 = true ->
  htotal mode <> 0 ->
  exists edid',
    edid_init_with_mode edid tm_year mode = Some edid' /\
    edid_wf (edid_update_checksum edid') /\
    byte_sum (edid_update_checksum edid') mod 256 = 0 /\
    take 127 (edid_update_checksum edid') = take 127 edid'.
Proof.
  intros _ Hacc Hht.
  destruct (edid_init_with_mode_some edid tm_year mode Hacc Hht)
    as (e0 & d0 & d1 & d2 & He0 & Hwf0 & (H0 & W0) & (H1 & W1)
        & (H2 & W2) & Hrun).
  eexists. split; [exact Hrun|].
  assert (Hwf : edid_wf (take 54 e0 ++ d0 ++ d1 ++ d2 ++ replicate 20 0)).
  { pose proof (proj1 W0) as L0. pose proof (proj1 W1) as L1.
    pose proof (proj1 W2) as L2. pose proof (proj1 Hwf0) as Le.
    change DetailedTiming.sizeof with 18%nat in L0, L1, L2.
    change Edid.sizeof with 128%nat in Le.
    split.
    - rewrite !length_app, length_take, length_replicate, L0, L1, L2, Le.
      reflexivity.
    - rewrite !Forall_app.
      split; [apply Forall_take; apply Hwf0|].
      split; [apply W0|]. split; [apply W1|]. split; [apply W2|].
      apply Forall_replicate. unfold is_u8. lia. }
  split; [apply edid_update_checksum_wf; exact Hwf|].
  split; [apply byte_sum_edid_update_checksum; exact Hwf|].
  apply edid_update_checksum_prefix.
Qed.

End InitWithModeClaims.

Lemma edid_init_with_mode_layout_witness :
  exists e0 edid',
    edid_init (C := edid_1_3) zero_edid 119 = Some e0 /\
    edid_init_with_mode (C := edid_1_3) zero_edid 119 mode_720p
    = Some edid' /\
    edid_wf edid' /\
    take 54 edid' = take 54 e0 /\
    detailed_timing_set_mode (C := edid_1_3) zero_descriptor mode_720p
                             520 300
    = Some (descriptor edid' 0) /\
    detailed_timing_set_monitor_range_mode (C := edid_1_3) zero_descriptor
                                           mode_720p
    = Some (descriptor edid' 1) /\
    detailed_timing_set_string (C := edid_1_3) zero_descriptor 0xfc
                               (chars "IGT")
    = Some (descriptor edid' 2) /\
    descriptor edid' 3 = zero_descriptor /\
    load edid' Edid.extensions = 0 /\
    load edid' Edid.checksum = 0.
Proof.
  apply (edid_init_with_mode_layout (C := edid_1_3) zero_edid 119 mode_720p);
    [check_mode | reflexivity | discriminate].
Defined.

Lemma edid_init_with_mode_checksum_witness :
  exists edid',
    edid_init_with_mode (C := edid_1_3) zero_edid 119 mode_720p
    = Some edid' /\
    edid_wf (edid_update_checksum edid') /\
    byte_sum (edid_update_checksum edid') mod 256 = 0 /\
    take 127 (edid_update_checksum edid') = take 127 edid'.
Proof.
  apply (edid_init_with_mode_checksum (C := edid_1_3)
           zero_edid 119 mode_720p);
    [check_mode | reflexivity | discriminate].
Defined.

